(** * stock_ml_frontend: a shallow embedding of [app.py]

    The dashboard script is a chain of blocking calls: the market-data
    provider (yfinance), the backend (requests), pandas for the table that
    is plotted and Streamlit for the widgets and the session state.  The
    script itself is embedded function by function, under the names it has
    in [app.py]; the libraries it calls are modelled at their interface:

    - a decoded JSON body is a [json] value, with Python's truth value;
    - an exception is an [exn], told apart by the class a handler tests;
    - a call that leaves the process (backend, provider) is answered by an
      oracle that sees the calls made so far, and is recorded in the world;
    - a pandas [Timestamp] is its count of nanoseconds since the epoch;
    - a Python [float] is an IEEE binary64 number, a [spec_float] of the
      standard library with 53 bits of precision.

    Where a library is called on a value outside the shapes the backend
    interface documents and its behaviour there is not modelled, the model
    stops with [Unmodelled] rather than inventing a result. *)

From Stdlib Require Import ZArith SpecFloat String Ascii List Lia Bool.
From stdpp Require Import base option list gmap strings.

#[local] Open Scope Z_scope.
#[local] Set Warnings "-register-all".

(** ** Python values decoded from JSON *)

(** [json.loads] gives an [int] for a number written without fraction and
    exponent, and a [float] for every other number. *)
Inductive json : Type :=
| JNull
| JBool (b : bool)
| JInt (n : Z)
| JFloat (x : spec_float)
| JStr (s : string)
| JArr (l : list json)
| JObj (m : gmap string json).

(** Python's truth value of a decoded JSON value: [None], [False], zero,
    the empty string, the empty list and the empty dict are false. *)
Definition truthy (v : json) : bool :=
  match v with
  | JNull => false
  | JBool b => b
  | JInt n => negb (n =? 0)
  | JFloat x => match x with S754_zero _ => false | _ => true end
  | JStr s => negb (String.eqb s "")
  | JArr l => match l with [] => false | _ :: _ => true end
  | JObj m => negb (Nat.eqb (map_size m) 0)
  end.

(** ** Exceptions *)

(** The classes of [requests.exceptions] the script can meet. *)
Inductive RequestErrorKind : Type :=
| ConnectionError
| Timeout
| TooManyRedirects
| HTTPError
| JSONDecodeError.

Inductive exn : Type :=
| RequestException (kind : RequestErrorKind) (msg : string)
| KeyError (key : string)
| AttributeError (msg : string)
| TypeError (msg : string)
| ValueError (msg : string)
| ProviderError (msg : string)
| RerunException.

(** An f-string is kept as its pieces, so that no rendering of a value or
    of an exception has to be chosen: [f"Invalid ticker: {ticker}"] is
    [[Lit "Invalid ticker: "; Val ticker]]. *)
Inductive piece : Type :=
| Lit (s : string)
| Val (v : json)
| Exc (e : exn).

Definition fstring : Type := list piece.

(** [isinstance(e, requests.exceptions.RequestException)]: every error the
    requests library raises itself, [HTTPError] of [raise_for_status] and
    the [JSONDecodeError] of [Response.json] included. *)
Definition is_RequestException (e : exn) : bool :=
  match e with
  | RequestException _ _ => true
  | _ => false
  end.

(** [isinstance(e, Exception)]: Streamlit's rerun signal derives from
    [BaseException] only, everything else here from [Exception]. *)
Definition is_Exception (e : exn) : bool :=
  match e with
  | RerunException => false
  | _ => true
  end.

(** ** Results of a computation *)

Inductive outcome (A : Type) : Type :=
| Ok (a : A)
| Raise (e : exn)
| Unmodelled (what : string).

Arguments Ok {A} a.
Arguments Raise {A} e.
Arguments Unmodelled {A} what.

Definition obind {A B : Type} (x : outcome A) (f : A -> outcome B) : outcome B :=
  match x with
  | Ok a => f a
  | Raise e => Raise e
  | Unmodelled s => Unmodelled s
  end.

#[global] Instance outcome_ret : MRet outcome := @Ok.
#[global] Instance outcome_bind : MBind outcome := fun A B f x => obind x f.

(** ** [dict.get] and subscription on decoded values *)

(** [v.get(key)]: only a dict has the method. *)
Definition py_get (v : json) (key : string) : outcome json :=
  match v with
  | JObj m => Ok (default JNull (m !! key))
  | _ => Raise (AttributeError "object has no attribute 'get'")
  end.

(** [v[key]] with a string key. *)
Definition py_getitem (v : json) (key : string) : outcome json :=
  match v with
  | JObj m => match m !! key with
              | Some x => Ok x
              | None => Raise (KeyError key)
              end
  | _ => Raise (TypeError "not subscriptable by a string key")
  end.

(** [a and b] as a condition, where evaluating [b] may raise. *)
Definition py_and (a : json) (b : outcome json) : outcome json :=
  if truthy a then b else Ok a.

(** ** Timestamps and the civil calendar *)

(** A pandas [Timestamp]: nanoseconds since 1970-01-01T00:00, without a time
    zone.  The 64-bit range of pandas is not modelled. *)
Definition Timestamp : Type := Z.

Definition NS_PER_DAY : Z := 86400000000000.

(** [timedelta(days=i)] as a count of nanoseconds. *)
Definition timedelta (days : Z) : Z := days * NS_PER_DAY.

(** The day number of a timestamp, counted from the epoch. *)
Definition day_number (t : Timestamp) : Z := t / NS_PER_DAY.

Definition is_leap (y : Z) : bool :=
  (y mod 4 =? 0) && (negb (y mod 100 =? 0) || (y mod 400 =? 0)).

Definition days_in_month (y m : Z) : Z :=
  if m =? 2 then (if is_leap y then 29 else 28)
  else if (m =? 4) || (m =? 6) || (m =? 9) || (m =? 11) then 30
  else 31.

(** Day number of the civil date [y]-[m]-[d] (proleptic Gregorian). *)
Definition days_from_civil (y m d : Z) : Z :=
  let y' := if m <=? 2 then y - 1 else y in
  let era := y' / 400 in
  let yoe := y' - era * 400 in
  let doy := (153 * (if 2 <? m then m - 3 else m + 9) + 2) / 5 + d - 1 in
  let doe := yoe * 365 + yoe / 4 - yoe / 100 + doy in
  era * 146097 + doe - 719468.

(** The civil date of the day [doe] of the 400-year era that starts on
    1 March of year [400 * era]. *)
Definition civil_in_era (era doe : Z) : Z * Z * Z :=
  let yoe := (doe - doe / 1460 + doe / 36524 - doe / 146096) / 365 in
  let doy := doe - (365 * yoe + yoe / 4 - yoe / 100) in
  let mp := (5 * doy + 2) / 153 in
  let d := doy - (153 * mp + 2) / 5 + 1 in
  let m := if mp <? 10 then mp + 3 else mp - 9 in
  (yoe + era * 400 + (if m <=? 2 then 1 else 0), m, d).

Definition civil_from_days (z : Z) : Z * Z * Z :=
  let z' := z + 719468 in
  civil_in_era (z' / 146097) (z' mod 146097).

(** The calendar date a timestamp falls on. *)
Definition date_of (t : Timestamp) : Z * Z * Z := civil_from_days (day_number t).

(** The calendar day after [y]-[m]-[d]. *)
Definition next_day (ymd : Z * Z * Z) : Z * Z * Z :=
  let '(y, m, d) := ymd in
  if d <? days_in_month y m then (y, m, d + 1)
  else if m <? 12 then (y, m + 1, 1)
  else (y + 1, 1, 1).

Fixpoint days_after (n : nat) (ymd : Z * Z * Z) : Z * Z * Z :=
  match n with
  | O => ymd
  | S k => next_day (days_after k ymd)
  end.

(** *** Reading a date string *)

Definition digit_of (c : ascii) : option Z :=
  let n := Z.of_nat (nat_of_ascii c) in
  if (48 <=? n) && (n <=? 57) then Some (n - 48) else None.

Fixpoint number_of (acc : Z) (cs : list ascii) : option Z :=
  match cs with
  | [] => Some acc
  | c :: cs' => match digit_of c with
                | Some k => number_of (10 * acc + k) cs'
                | None => None
                end
  end.

(** The date strings the model reads are the ISO calendar dates
    [YYYY-MM-DD]; the result is midnight of that day. *)
Definition parse_date (s : string) : option Timestamp :=
  match list_ascii_of_string s with
  | [y1; y2; y3; y4; s1; m1; m2; s2; d1; d2] =>
      if Ascii.eqb s1 "-" && Ascii.eqb s2 "-" then
        match number_of 0 [y1; y2; y3; y4], number_of 0 [m1; m2], number_of 0 [d1; d2] with
        | Some y, Some m, Some d =>
            if (1 <=? y) && (1 <=? m) && (m <=? 12) && (1 <=? d) && (d <=? days_in_month y m)
            then Some (days_from_civil y m d * NS_PER_DAY)
            else None
        | _, _, _ => None
        end
      else None
  | _ => None
  end.

(** ** pandas *)

(** A row of the two-column table the script plots.  A [DataFrame] is the
    list of its rows in index order; its columns have one length by
    construction. *)
Record Row : Type := mkRow { Date : Timestamp; Close : json }.

Definition DataFrame : Type := list Row.

(** [pd.to_datetime(v)] for a list of calendar dates [YYYY-MM-DD].  What
    pandas makes of any other string (a date and a time, another format, the
    empty string) is not modelled. *)
Fixpoint parse_dates (l : list json) : outcome (list Timestamp) :=
  match l with
  | [] => Ok []
  | JStr s :: l' =>
      match parse_date s with
      | Some t => obind (parse_dates l') (fun ts => Ok (t :: ts))
      | None => Unmodelled "to_datetime: a string that is not YYYY-MM-DD"
      end
  | _ :: _ => Unmodelled "to_datetime: element that is not a string"
  end.

Definition pd_to_datetime (v : json) : outcome (list Timestamp) :=
  match v with
  | JArr l => parse_dates l
  | _ => Unmodelled "to_datetime: argument that is not a list"
  end.

Fixpoint zip_rows (dates : list Timestamp) (close : list json) : DataFrame :=
  match dates, close with
  | d :: ds, c :: cs => mkRow d c :: zip_rows ds cs
  | _, _ => []
  end.

(** [pd.DataFrame({"Date": dates, "Close": close})]: two lists of different
    lengths raise [ValueError].  A frame of the model keeps the values of
    [close] as they were decoded; the type pandas stores the column in is
    computed where the script makes it show, in [pd_concat]. *)
Definition pd_DataFrame (dates : list Timestamp) (close : json) : outcome DataFrame :=
  match close with
  | JArr cs =>
      if Nat.eqb (length dates) (length cs) then Ok (zip_rows dates cs)
      else Raise (ValueError "All arrays must be of the same length")
  | _ => Unmodelled "DataFrame: column that is not a list"
  end.

(** [df["Date"].max()]. *)
Definition Date_max (df : DataFrame) : outcome Timestamp :=
  match df with
  | [] => Unmodelled "max of an empty column"
  | r :: rs => Ok (fold_left Z.max (map Date rs) (Date r))
  end.

(** The column types of the numbers the backend sends. *)
Inductive dtype : Type :=
| int64
| float64.

Definition in_int64 (n : Z) : bool := (- 2 ^ 63 <=? n) && (n <? 2 ^ 63).

Definition is_int64 (v : json) : bool :=
  match v with
  | JInt n => in_int64 n
  | _ => false
  end.

Definition is_number (v : json) : bool :=
  match v with
  | JInt n => in_int64 n
  | JFloat _ => true
  | _ => false
  end.

(** The type pandas gives a column of decoded numbers: [int64] when all of
    them are integers of 64 bits, [float64] when a float is among them.
    Columns with anything else (a string, [None], a boolean, a larger
    integer) and columns without a value are not modelled. *)
Definition column_dtype (vs : list json) : outcome dtype :=
  match vs with
  | [] => Unmodelled "column without a value"
  | _ :: _ =>
      if forallb is_int64 vs then Ok int64
      else if forallb is_number vs then Ok float64
      else Unmodelled "column that is not of numbers"
  end.

(** The conversion of an integer to [float64]: the nearest float, ties to
    even. *)
Definition float_of_int (n : Z) : spec_float := binary_normalize 53 1024 n 0 false.

(** A number as it is stored in a column of type [t]. *)
Definition astype (t : dtype) (v : json) : json :=
  match t, v with
  | float64, JInt n => JFloat (float_of_int n)
  | _, _ => v
  end.

(** The type of two columns put together. *)
Definition common_dtype (a b : dtype) : dtype :=
  match a, b with
  | int64, int64 => int64
  | _, _ => float64
  end.

(** [pd.concat([a, b], ignore_index=True)]: the rows of [a], then those of
    [b], renumbered from 0, in a new frame whose [Close] column has the
    common type of the two columns. *)
Definition pd_concat (a b : DataFrame) : outcome DataFrame :=
  ta ← column_dtype (map Close a);
  tb ← column_dtype (map Close b);
  let t := common_dtype ta tb in
  mret (map (fun r => mkRow (Date r) (astype t (Close r))) (a ++ b)).

(** The integer a float equals, if it is whole. *)
Definition int_of_float (x : spec_float) : option Z :=
  match x with
  | S754_zero _ => Some 0
  | S754_finite s m e =>
      if 0 <=? e then Some (cond_Zopp s (Zpos m * 2 ^ e))
      else if Zpos m mod 2 ^ (- e) =? 0 then Some (cond_Zopp s (Zpos m / 2 ^ (- e)))
      else None
  | _ => None
  end.

(** ** The local time of the host *)

Definition NS_PER_SECOND : Z := 1000000000.

(** [time.mktime(t.timetuple())]: the fields of [t] down to the second, read
    as a time of the host's time zone, in seconds since the epoch.  [mktime]
    is the host's conversion, on the seconds the fields count from
    1970-01-01 00:00:00.  Every host converts the dates from 1970-01-02
    to 2038-01-18; where [time.mktime] raises [OverflowError] outside them
    depends on the platform and is not modelled. *)
Definition every_host_converts (t : Timestamp) : bool :=
  (86400 <=? t / NS_PER_SECOND) && (t / NS_PER_SECOND <? 2 ^ 31 - 86400).

Definition time_mktime (mktime : Z -> Z) (t : Timestamp) : outcome Z :=
  if every_host_converts t then Ok (mktime (t / NS_PER_SECOND))
  else Unmodelled "mktime: a date outside 1970-2038".

(** ** plotly *)

(** [px.line(df, x="Date", y="Close", title=...)], and the [x] of the dashed
    vertical line [add_vline] draws, a number of milliseconds. *)
Record Figure : Type := mkFigure {
  fig_data : DataFrame;
  fig_title : fstring;
  fig_vline : option Z
}.

(** ** The world the script runs in *)

(** The four backend calls of the script; the base URL is a constant of the
    deployment, which [st.secrets] is taken to hold.
    - [GET_tickers]: [requests.get(f"{API_BASE_URL}/tickers")]
    - [GET_historical_data t]: [requests.get(f"{API_BASE_URL}/historical_data/{t}")]
    - [POST_predict t]: [requests.post(f"{API_BASE_URL}/predict", json={"ticker": t})]
    - [POST_add t]: [requests.post(f"{API_BASE_URL}/add", json={"ticker": t})] *)
Inductive Request : Type :=
| GET_tickers
| GET_historical_data (ticker : json)
| POST_predict (ticker : json)
| POST_add (ticker : json).

(** What [requests.get]/[requests.post] does: it raises one of the library's
    own errors, or returns a response with a status code and a body, which
    is [None] when it is not JSON. *)
Inductive HttpOutcome : Type :=
| HttpFailure (kind : RequestErrorKind) (msg : string)
| HttpResponse (status_code : Z) (body : option json).

(** What [yf.Ticker(t).history(period="1d")] does: it raises, or returns a
    frame with so many rows. *)
Inductive ProviderOutcome : Type :=
| ProviderRaises (msg : string)
| ProviderFrame (rows : nat).

(** Calls to Streamlit that put something on the page. *)
Inductive UiCall : Type :=
| st_title (s : string)
| st_header (s : string)
| st_error (msg : fstring)
| st_warning (s : string)
| st_success (v : json)
| st_selectbox (label : string) (options : json) (index : option nat)
| st_text_input (label : string)
| st_button (label : string)
| st_plotly_chart (fig : Figure).

Record World : Type := mkWorld {
  session_state : gmap string json;
  page : list UiCall;
  backend_calls : list Request;
  provider_calls : list json
}.

Definition log_page (c : UiCall) (w : World) : World :=
  mkWorld (session_state w) (page w ++ [c]) (backend_calls w) (provider_calls w).

Definition log_backend (r : Request) (w : World) : World :=
  mkWorld (session_state w) (page w) (backend_calls w ++ [r]) (provider_calls w).

Definition log_provider (t : json) (w : World) : World :=
  mkWorld (session_state w) (page w) (backend_calls w) (provider_calls w ++ [t]).

Definition store (key : string) (v : json) (w : World) : World :=
  mkWorld (<[key := v]> (session_state w)) (page w) (backend_calls w) (provider_calls w).

(** What the user did to the widgets before this run of the script. *)
Record UserInput : Type := mkUserInput {
  picked : nat;
  typed : string;
  clicked : bool
}.

(** ** The monad of the script: state and exceptions *)

Definition M (A : Type) : Type := World -> outcome A * World.

Definition ret {A : Type} (a : A) : M A := fun w => (Ok a, w).

Definition bind {A B : Type} (x : M A) (f : A -> M B) : M B :=
  fun w => match x w with
           | (Ok a, w') => f a w'
           | (Raise e, w') => (Raise e, w')
           | (Unmodelled s, w') => (Unmodelled s, w')
           end.

Definition raise {A : Type} (e : exn) : M A := fun w => (Raise e, w).

Definition lift {A : Type} (x : outcome A) : M A := fun w => (x, w).

(** [try: body  except C as e: handler(e)], with [C] given by its
    [isinstance] test. *)
Definition try_except {A : Type} (body : M A) (C : exn -> bool) (handler : exn -> M A) : M A :=
  fun w => match body w with
           | (Raise e, w') => if C e then handler e w' else (Raise e, w')
           | r => r
           end.

#[global] Instance M_ret : MRet M := @ret.
#[global] Instance M_bind : MBind M := fun A B f x => bind x f.

Definition show (c : UiCall) : M unit := fun w => (Ok tt, log_page c w).

(** [st.session_state[key]] *)
Definition session_get (key : string) : M json :=
  fun w => match session_state w !! key with
           | Some v => (Ok v, w)
           | None => (Raise (KeyError key), w)
           end.

(** [st.session_state[key] = v] *)
Definition session_set (key : string) (v : json) : M unit :=
  fun w => (Ok tt, store key v w).

(** [key in st.session_state] *)
Definition session_has (key : string) : M bool :=
  fun w => (Ok (bool_decide (is_Some (session_state w !! key))), w).

(** ** Streamlit's select box *)

(** The value of [st.selectbox(label, options=..., index=...)]: the option
    the user picked, or the one at [index] while nothing (still) valid is
    picked. *)
Definition selectbox_value (options : json) (index : option nat) (picked : nat) : outcome json :=
  match options with
  | JArr l =>
      match l !! picked with
      | Some v => Ok v
      | None => Ok (default JNull (i ← index; l !! i))
      end
  | _ => Unmodelled "selectbox: options that are not a list"
  end.

(** ** The derivation of the plotted table (pure part of the main area) *)

(** Lines 128-131: the historical frame. *)
Definition df_historical_of (historical_data : json) : outcome DataFrame :=
  d ← py_getitem historical_data "dates";
  dates ← pd_to_datetime d;
  close ← py_getitem historical_data "close";
  pd_DataFrame dates close.

(** [[last_date + timedelta(days=i) for i in range(1, 8)]] *)
Definition prediction_dates_of (last_date : Timestamp) : list Timestamp :=
  map (fun i => last_date + timedelta i) (seqZ 1 7).

(** Lines 139-143: the combined frame. *)
Definition df_combined_of (df_historical : DataFrame) (predictions : json) : outcome DataFrame :=
  last_date ← Date_max df_historical;
  let prediction_dates := prediction_dates_of last_date in
  df_predictions ← pd_DataFrame prediction_dates predictions;
  pd_concat df_historical df_predictions.

(** Lines 136-170 up to the call of [st.plotly_chart]: the figure that is
    drawn for a historical frame and the decoded predictions response, on a
    host whose local time is [mktime]. *)
Definition figure_of (mktime : Z -> Z) (ticker : json) (df_historical : DataFrame)
    (predictions_data : json) : outcome Figure :=
  p ← py_and predictions_data (py_get predictions_data "predictions");
  if truthy p then
    predictions ← py_getitem predictions_data "predictions";
    last_date ← Date_max df_historical;
    df_combined ← df_combined_of df_historical predictions;
    last_date_ts ← time_mktime mktime last_date;
    mret (mkFigure df_combined [Lit "Stock Data and Prediction for "; Val ticker]
            (Some (last_date_ts * 1000)))
  else
    mret (mkFigure df_historical [Lit "Stock Data for "; Val ticker] None).

(** ** The client functions and the script *)

Record Response : Type := mkResponse { status_code : Z; body : option json }.

(** [response.raise_for_status()]: [HTTPError] for a 4xx or 5xx status. *)
Definition raise_for_status (r : Response) : M unit :=
  if (400 <=? status_code r) && (status_code r <? 600)
  then raise (RequestException HTTPError "error status")
  else mret tt.

(** [response.json()]: [requests.exceptions.JSONDecodeError] when the body
    is not JSON (a [RequestException], as in requests 2.27 and later). *)
Definition response_json (r : Response) : M json :=
  match body r with
  | Some v => mret v
  | None => raise (RequestException JSONDecodeError "body is not JSON")
  end.

Section Client.

(** The backend and the market-data provider: what each answers to a call,
    given the calls it has received before; and the local time of the host
    the script runs on. *)
Variable backend : list Request -> Request -> HttpOutcome.
Variable provider : list json -> json -> ProviderOutcome.
Variable mktime : Z -> Z.

(** [requests.get(...)] and [requests.post(...)] *)
Definition requests_call (r : Request) : M Response :=
  fun w =>
    match backend (backend_calls w) r with
    | HttpFailure k msg => (Raise (RequestException k msg), log_backend r w)
    | HttpResponse s b => (Ok (mkResponse s b), log_backend r w)
    end.

(** [yf.Ticker(ticker).history(period="1d")], as the number of rows of the
    frame it returns; a frame of the provider has its price columns, so
    [hist.empty] holds exactly when it has no row. *)
Definition yf_history (ticker : json) : M nat :=
  fun w =>
    match provider (provider_calls w) ticker with
    | ProviderRaises msg => (Raise (ProviderError msg), log_provider ticker w)
    | ProviderFrame rows => (Ok rows, log_provider ticker w)
    end.

Definition is_valid_ticker (ticker : json) : M bool :=
  try_except
    (hist ← yf_history ticker;
     mret (negb (Nat.eqb hist 0)))
    is_Exception
    (fun _ => mret false).

Definition fetch_tickers : M json :=
  try_except
    (response ← requests_call GET_tickers;
     raise_for_status response;;
     response_json response)
    is_RequestException
    (fun e => show (st_error [Lit "Error fetching tickers: "; Exc e]);;
              mret (JArr [])).

Definition fetch_historical_data (ticker : json) : M json :=
  try_except
    (response ← requests_call (GET_historical_data ticker);
     raise_for_status response;;
     response_json response)
    is_RequestException
    (fun e => show (st_error [Lit "Error fetching historical data for "; Val ticker;
                              Lit ": "; Exc e]);;
              mret JNull).

Definition fetch_predictions (ticker : json) : M json :=
  try_except
    (response ← requests_call (POST_predict ticker);
     raise_for_status response;;
     response_json response)
    is_RequestException
    (fun e => show (st_error [Lit "Error fetching predictions for "; Val ticker;
                              Lit ": "; Exc e]);;
              mret JNull).

Definition add_new_ticker (ticker : json) : M json :=
  valid ← is_valid_ticker ticker;
  if negb valid then
    show (st_error [Lit "Invalid ticker: "; Val ticker]);;
    mret JNull
  else
    try_except
      (response ← requests_call (POST_add ticker);
       raise_for_status response;;
       response_json response)
      is_RequestException
      (fun e => show (st_error [Lit "Error adding ticker "; Val ticker; Lit ": "; Exc e]);;
                mret JNull).

(** Lines 80-87. *)
Definition init_session : M unit :=
  b1 ← session_has "selected_ticker";
  (if negb b1 then session_set "selected_ticker" JNull else mret tt);;
  b2 ← session_has "all_tickers";
  (if negb b2 then session_set "all_tickers" (JArr []) else mret tt);;
  b3 ← session_has "ticker_added";
  (if negb b3 then
     session_set "ticker_added" (JBool false);;
     session_set "initial_load" (JBool true)
   else mret tt).

(** Lines 92-105: the ticker list is fetched and one ticker is selected. *)
Definition ticker_selection (u : UserInput) : M unit :=
  show (st_header "Ticker Options");;
  tickers ← fetch_tickers;
  session_set "all_tickers" tickers;;
  all_tickers ← session_get "all_tickers";
  if negb (truthy all_tickers) then
    show (st_warning "No tickers available. Please add a ticker.");;
    session_set "selected_ticker" JNull
  else
    options ← session_get "all_tickers";
    c ← session_get "all_tickers";
    let index := if truthy c then Some 0%nat else None in
    show (st_selectbox "Select Ticker" options index);;
    selected ← lift (selectbox_value options index (picked u));
    session_set "selected_ticker" selected.

(** Lines 107-120: the form that adds a ticker. *)
Definition add_ticker_form (u : UserInput) : M unit :=
  show (st_header "Add Ticker");;
  show (st_text_input "Enter New Ticker");;
  let new_ticker := JStr (typed u) in
  show (st_button "Add Ticker");;
  let add_button := clicked u in
  if add_button && truthy new_ticker then
    add_response ← add_new_ticker new_ticker;
    if truthy add_response then
      message ← lift (py_get add_response "message");
      show (st_success message);;
      tickers ← fetch_tickers;
      session_set "all_tickers" tickers;;
      raise RerunException
    else mret tt
  else mret tt.

(** Lines 91-120. *)
Definition sidebar (u : UserInput) : M unit :=
  ticker_selection u;;
  add_ticker_form u.

(** Lines 122-174. *)
Definition main_area : M unit :=
  selected_ticker ← session_get "selected_ticker";
  if truthy selected_ticker then
    historical_data ← fetch_historical_data selected_ticker;
    has_dates ← lift (py_and historical_data (py_get historical_data "dates"));
    if truthy has_dates then
      df_historical ← lift (df_historical_of historical_data);
      predictions_data ← fetch_predictions selected_ticker;
      fig ← lift (figure_of mktime selected_ticker df_historical predictions_data);
      show (st_plotly_chart fig)
    else
      show (st_warning
        "Could not retrieve data, please make sure ticker has valid historical data")
  else mret tt.

(** One run of the script, top to bottom. *)
Definition script (u : UserInput) : M unit :=
  show (st_title "Stock Price Prediction App");;
  init_session;;
  sidebar u;;
  main_area.

(** A render cycle: Streamlit runs the script, and runs it again when
    [st.rerun()] stopped it; the button reads [False] in that second run. *)
Definition render (u : UserInput) : M unit :=
  fun w =>
    match script u w with
    | (Raise RerunException, w') => script (mkUserInput (picked u) (typed u) false) w'
    | r => r
    end.

End Client.

(** * Notions the properties are stated with *)

(** ** The calendar, one year at a time *)

Definition shift_year (k : Z) (ymd : Z * Z * Z) : Z * Z * Z :=
  let '(y, m, d) := ymd in (y + k, m, d).

(** [P] holds of the [n] integers from [z] on. *)
Fixpoint all_from (n : nat) (z : Z) (P : Z -> bool) : bool :=
  match n with
  | O => true
  | S k => P z && all_from k (z + 1) P
  end.

(** The year of the era a day of the era falls in, the day of the era a
    year starts on (years start on 1 March), and the month and day of a day
    of the year: the three steps of [civil_in_era]. *)
Definition yoe_of (r : Z) : Z := (r - r / 1460 + r / 36524 - r / 146096) / 365.

Definition year_start (y : Z) : Z := 365 * y + y / 4 - y / 100 + y / 400.

Definition month_day (doy : Z) : Z * Z :=
  let mp := (5 * doy + 2) / 153 in
  (if mp <? 10 then mp + 3 else mp - 9, doy - (153 * mp + 2) / 5 + 1).

(** A year of the era starts and ends where [yoe_of] says, and has 366
    days when the civil year its February belongs to is a leap year. *)
Definition year_ok (y : Z) : bool :=
  (yoe_of (year_start y) =? y) && (yoe_of (year_start (y + 1) - 1) =? y)
  && (year_start (y + 1) - year_start y =? (if is_leap (y + 1) then 366 else 365)).

(** January and February belong to the civil year after the one the year of
    the era starts in. *)
Definition carry (m : Z) : Z := if m <=? 2 then 1 else 0.

(** Within a year of the era that starts on 1 March, from the day [doy] of
    the year to the next: the same month, or the first of the next one. *)
Definition in_year_step_ok (leap : bool) (doy : Z) : bool :=
  let '(m, d) := month_day doy in
  let '(m', d') := month_day (doy + 1) in
  let dim := if m =? 2 then (if leap then 29 else 28) else days_in_month 1 m in
  if d <? dim then (m' =? m) && (d' =? d + 1)
  else if m <? 12 then (m' =? m + 1) && (d' =? 1) && (carry m =? carry (m + 1))
  else (m' =? 1) && (d' =? 1).

(** The day of the year that starts on 1 March, of the day [d] of month [m]. *)
Definition doy_of (m d : Z) : Z :=
  (153 * (if 2 <? m then m - 3 else m + 9) + 2) / 5 + d - 1.

(** The day [d] of month [m], when the month has it, is a day of the year
    and [month_day] gives it back. *)
Definition month_date_ok (leap : bool) (m d : Z) : bool :=
  let dim := if m =? 2 then (if leap then 29 else 28) else days_in_month 1 m in
  negb (d <=? dim)
  || ((0 <=? doy_of m d) && (doy_of m d <? (if leap then 366 else 365))
      && (fst (month_day (doy_of m d)) =? m) && (snd (month_day (doy_of m d)) =? d)).

Definition month_dates_ok (leap : bool) (m : Z) : bool := all_from 31 1 (month_date_ok leap m).

(** ** What a backend call comes to *)

Definition error_status (s : Z) : bool := (400 <=? s) && (s <? 600).

(** The exception the body of a [try] block of a fetch function ends with,
    if any: the call itself fails (no connection, timeout, ...), the status
    is an error status, or the body is not JSON. *)
Definition request_error (o : HttpOutcome) : option exn :=
  match o with
  | HttpFailure k msg => Some (RequestException k msg)
  | HttpResponse s b =>
      if error_status s then Some (RequestException HTTPError "error status")
      else match b with
           | Some _ => None
           | None => Some (RequestException JSONDecodeError "body is not JSON")
           end
  end.

(** The decoded body of an answer that is no failure. *)
Definition decoded (o : HttpOutcome) : json :=
  match o with
  | HttpResponse _ (Some v) => v
  | _ => JNull
  end.

(** What a function that calls the backend once comes to, from the world
    [w] the call is logged in: its default and one error on the page when
    the call fails, the decoded body and nothing on the page otherwise. *)
Definition default_on_failure (o : HttpOutcome) (d : json) (message : exn -> fstring)
    (w : World) : outcome json * World :=
  match request_error o with
  | Some e => (Ok d, log_page (st_error (message e)) w)
  | None => (Ok (decoded o), w)
  end.

Definition has_rows (o : ProviderOutcome) : bool :=
  match o with
  | ProviderFrame (S _) => true
  | _ => false
  end.

(** ** Numbers in a column *)

(** The type of a column of numbers. *)
Definition numbers_dtype (vs : list json) : dtype :=
  if forallb is_int64 vs then int64 else float64.

(** [v'] is the number [v]: [v] itself, or the float equal to the integer
    [v]. *)
Definition same_number (v v' : json) : Prop :=
  v' = v \/ exists (n : Z) (x : spec_float), v = JInt n /\ v' = JFloat x /\ int_of_float x = Some n.

(** The numbers a [float64] column holds as they are: every float, and the
    integers up to [2 ^ 53] in magnitude. *)
Definition exact_in_float64 (v : json) : bool :=
  match v with
  | JInt n => Z.abs n <=? 2 ^ 53
  | _ => true
  end.

(** ** Shapes of decoded bodies *)

(** The predictions are absent: the call failed ([None]), or the body or its
    [predictions] entry is false in Python's sense (missing, [null], empty). *)
Definition absent_predictions (predictions_data : json) : bool :=
  negb (truthy predictions_data)
  || match predictions_data with
     | JObj m => negb (truthy (default JNull (m !! "predictions")))
     | _ => false
     end.

Definition is_string (v : json) : bool :=
  match v with JStr _ => true | _ => false end.

(** A body of [GET /tickers]: a list of strings, or anything false. *)
Definition ok_tickers (v : json) : bool :=
  negb (truthy v) || match v with JArr l => forallb is_string l | _ => false end.

(** A body of [POST /add]: an object, or anything false. *)
Definition ok_added (v : json) : bool :=
  negb (truthy v) || match v with JObj _ => true | _ => false end.

(** Calendar dates [YYYY-MM-DD] that every host converts to its local
    time. *)
Definition ok_dates (ds : list json) : bool :=
  match parse_dates ds with
  | Ok ts => forallb every_host_converts ts
  | _ => false
  end.

(** A body of [GET /historical_data/...]: anything false, or an object whose
    [dates] are false or a list of such dates, with a [close] list of as
    many numbers (floats, or integers of 64 bits). *)
Definition ok_historical (v : json) : bool :=
  negb (truthy v)
  || match v with
     | JObj m =>
         let d := default JNull (m !! "dates") in
         negb (truthy d)
         || match d, m !! "close" with
            | JArr ds, Some (JArr cs) =>
                ok_dates ds && Nat.eqb (length ds) (length cs)
                && forallb is_number cs
            | _, _ => false
            end
     | _ => false
     end.

(** A body of [POST /predict]: anything false, or an object whose
    [predictions] are false or a list of exactly 7 numbers. *)
Definition ok_predictions (v : json) : bool :=
  negb (truthy v)
  || match v with
     | JObj m =>
         let p := default JNull (m !! "predictions") in
         negb (truthy p)
         || match p with
            | JArr ps => Nat.eqb (length ps) 7 && forallb is_number ps
            | _ => false
            end
     | _ => false
     end.

Definition shape_ok (r : Request) (v : json) : bool :=
  match r with
  | GET_tickers => ok_tickers v
  | GET_historical_data _ => ok_historical v
  | POST_predict _ => ok_predictions v
  | POST_add _ => ok_added v
  end.

(** Every body the backend sends with a status that is no error has the
    shape of its endpoint. *)
Definition well_formed (backend : list Request -> Request -> HttpOutcome) : Prop :=
  forall (h : list Request) (r : Request) (s : Z) (v : json),
    backend h r = HttpResponse s (Some v) -> error_status s = false -> shape_ok r v = true.

(** The selection agrees with the ticker list [l] in the session state. *)
Definition selection_ok (l : list json) (w : World) : Prop :=
  session_state w !! "all_tickers" = Some (JArr l) /\
  exists sel : json,
    session_state w !! "selected_ticker" = Some sel /\
    (sel = JNull <-> l = []) /\
    (sel = JNull \/ sel ∈ l).

(** ** Concrete environments *)

Definition obj (kvs : list (string * json)) : json :=
  JObj (list_to_map kvs).

Definition nums (l : list Z) : json := JArr (map JInt l).

Definition fresh_world : World := mkWorld ∅ [] [] [].

(** A backend whose answer depends on the endpoint only. *)
Definition constant_backend (tickers historical predictions added : HttpOutcome)
  : list Request -> Request -> HttpOutcome :=
  fun _ r =>
    match r with
    | GET_tickers => tickers
    | GET_historical_data _ => historical
    | POST_predict _ => predictions
    | POST_add _ => added
    end.

(** A backend that answers the request for the tickers with [null], and
    one that answers it with a redirection that carries a list. *)
Definition null_tickers_backend : list Request -> Request -> HttpOutcome :=
  constant_backend
    (HttpResponse 200 (Some JNull))
    (HttpResponse 404 None)
    (HttpResponse 404 None)
    (HttpResponse 404 None).

Definition redirecting_backend : list Request -> Request -> HttpOutcome :=
  constant_backend
    (HttpResponse 302 (Some (JArr [JStr "AAPL"])))
    (HttpResponse 404 None)
    (HttpResponse 404 None)
    (HttpResponse 404 None).

(** Two hosts: one on UTC, one five hours west of it. *)
Definition utc : Z -> Z := fun wall => wall.

Definition five_hours_west : Z -> Z := fun wall => wall + 18000.

(** A provider that knows no symbol, and one that knows every symbol. *)
Definition no_symbol_provider : list json -> json -> ProviderOutcome :=
  fun _ _ => ProviderFrame 0.

Definition any_symbol_provider : list json -> json -> ProviderOutcome :=
  fun _ _ => ProviderFrame 1.

Definition failing_provider : list json -> json -> ProviderOutcome :=
  fun _ _ => ProviderRaises "no connection".

(** The end-to-end scenario: two tickers, two days of history and seven
    predictions for the first. *)
Definition scenario_historical : json :=
  obj [("dates", JArr [JStr "2024-01-01"; JStr "2024-01-02"]); ("close", nums [100; 102])].

Definition scenario_predictions : json :=
  obj [("predictions", nums [103; 104; 105; 106; 107; 108; 109])].

Definition scenario_backend : list Request -> Request -> HttpOutcome :=
  fun _ r =>
    match r with
    | GET_tickers => HttpResponse 200 (Some (JArr [JStr "AAPL"; JStr "MSFT"]))
    | GET_historical_data (JStr t) =>
        if String.eqb t "AAPL" then HttpResponse 200 (Some scenario_historical)
        else HttpResponse 404 None
    | POST_predict (JStr t) =>
        if String.eqb t "AAPL" then HttpResponse 200 (Some scenario_predictions)
        else HttpResponse 404 None
    | _ => HttpResponse 404 None
    end.

(** The same backend, with only six predictions. *)
Definition six_predictions_backend : list Request -> Request -> HttpOutcome :=
  constant_backend
    (HttpResponse 200 (Some (JArr [JStr "AAPL"; JStr "MSFT"])))
    (HttpResponse 200 (Some scenario_historical))
    (HttpResponse 200 (Some (obj [("predictions", nums [103; 104; 105; 106; 107; 108])])))
    (HttpResponse 404 None).

(** A backend with no history for any ticker: [{"dates": [], "close": []}]. *)
Definition empty_history : json := obj [("dates", JArr []); ("close", JArr [])].

Definition empty_history_backend : list Request -> Request -> HttpOutcome :=
  constant_backend
    (HttpResponse 200 (Some (JArr [JStr "AAPL"; JStr "MSFT"])))
    (HttpResponse 200 (Some empty_history))
    (HttpResponse 500 None)
    (HttpResponse 404 None).

(** A backend that is well formed, and one that cannot be reached. *)
Definition regular_backend : list Request -> Request -> HttpOutcome :=
  constant_backend
    (HttpResponse 200 (Some (JArr [JStr "AAPL"; JStr "MSFT"])))
    (HttpResponse 200 (Some scenario_historical))
    (HttpResponse 200 (Some scenario_predictions))
    (HttpResponse 200 (Some (obj [("message", JStr "Ticker added")]))).

Definition unreachable_backend : list Request -> Request -> HttpOutcome :=
  fun _ _ => HttpFailure ConnectionError "connection refused".

(** A backend that accepts an added ticker with an empty object. *)
Definition silent_add_backend : list Request -> Request -> HttpOutcome :=
  constant_backend
    (HttpResponse 200 (Some (JArr [JStr "AAPL"])))
    (HttpResponse 200 (Some scenario_historical))
    (HttpResponse 200 (Some scenario_predictions))
    (HttpResponse 200 (Some (obj []))).

(** Two days of history as a frame, and seven predictions. *)
Definition scenario_frame : DataFrame :=
  [mkRow 1704067200000000000 (JInt 100); mkRow 1704153600000000000 (JInt 102)].

Definition seven_predictions : list json :=
  map JInt [103; 104; 105; 106; 107; 108; 109].

(** One close above [2 ^ 53], and seven predictions that are floats. *)
Definition large_close_frame : DataFrame :=
  [mkRow 1704067200000000000 (JInt 9007199254740993)].

Definition seven_float_predictions : list json :=
  map (fun z => JFloat (float_of_int z)) [103; 104; 105; 106; 107; 108; 109].

(** A session in which a ticker is selected already. *)
Definition selected_world : World :=
  mkWorld {[ "selected_ticker" := JStr "AAPL" ]} [] [] [].

(** ** What a computation leaves alone *)

(** [x] relates the world it starts in to the world it ends in by [R], and
    raises only exceptions in [E]. *)
Definition respects (R : World -> World -> Prop) (E : exn -> Prop) {A : Type} (x : M A) : Prop :=
  forall w : World, R w (snd (x w)) /\ forall e : exn, fst (x w) = Raise e -> E e.

(** The calls that only read from the backend. *)
Definition is_read_call (r : Request) : bool :=
  match r with
  | POST_add _ => false
  | _ => true
  end.

(** The session keys the script writes. *)
Definition script_keys : list string :=
  ["selected_ticker"; "all_tickers"; "ticker_added"; "initial_load"].

(** [w'] extends the page and the two call logs of [w], and differs from it
    in the session state at the script's keys only. *)
Definition extends (w w' : World) : Prop :=
  (exists shown, page w' = page w ++ shown) /\
  (exists calls, backend_calls w' = backend_calls w ++ calls) /\
  (exists lookups, provider_calls w' = provider_calls w ++ lookups) /\
  (forall k : string, k ∉ script_keys -> session_state w' !! k = session_state w !! k).

(** [w'] has the provider log of [w], and the backend log of [w] followed
    by reading calls. *)
Definition only_reads (w w' : World) : Prop :=
  provider_calls w' = provider_calls w /\
  exists calls, backend_calls w' = backend_calls w ++ calls /\ Forall (fun r => is_read_call r = true) calls.

Definition not_rerun (e : exn) : Prop := e <> RerunException.

(** ** More backends *)

(** The scenario's backend without the prediction service. *)
Definition no_predictions_backend : list Request -> Request -> HttpOutcome :=
  constant_backend
    (HttpResponse 200 (Some (JArr [JStr "AAPL"; JStr "MSFT"])))
    (HttpResponse 200 (Some scenario_historical))
    (HttpFailure Timeout "read timed out")
    (HttpResponse 404 None).

(** Two dates and one close. *)
Definition short_close_backend : list Request -> Request -> HttpOutcome :=
  constant_backend
    (HttpResponse 200 (Some (JArr [JStr "AAPL"; JStr "MSFT"])))
    (HttpResponse 200
       (Some (obj [("dates", JArr [JStr "2024-01-01"; JStr "2024-01-02"]);
                   ("close", nums [100])])))
    (HttpResponse 200 (Some scenario_predictions))
    (HttpResponse 404 None).

(** Dates and no [close] entry. *)
Definition no_close_backend : list Request -> Request -> HttpOutcome :=
  constant_backend
    (HttpResponse 200 (Some (JArr [JStr "AAPL"; JStr "MSFT"])))
    (HttpResponse 200 (Some (obj [("dates", JArr [JStr "2024-01-01"; JStr "2024-01-02"])])))
    (HttpResponse 200 (Some scenario_predictions))
    (HttpResponse 404 None).

(** Bodies that are lists where objects are expected. *)
Definition list_body_backend : list Request -> Request -> HttpOutcome :=
  constant_backend
    (HttpResponse 200 (Some (JArr [JStr "AAPL"; JStr "MSFT"])))
    (HttpResponse 200 (Some (JArr [JStr "2024-01-01"])))
    (HttpResponse 200 (Some scenario_predictions))
    (HttpResponse 200 (Some (JArr [JStr "added"]))).

(** A session that has run the script before. *)
Definition used_world : World :=
  mkWorld (<["pinned" := JStr "kept"]> (<["selected_ticker" := JStr "MSFT"]> ∅)) [] [] [].

(** ** Lookups through updates of the session state *)

Ltac session_lookup :=
  repeat first [rewrite lookup_insert_eq | rewrite lookup_insert_ne by discriminate];
  repeat match goal with H : session_state _ !! _ = _ |- _ => rewrite H end;
  reflexivity.

(** ** The integers of the standard library and those of its floats *)

Ltac std_Z :=
  change IntDef.Z.max with Z.max in *; change IntDef.Z.sub with Z.sub in *;
  change IntDef.Z.add with Z.add in *; change IntDef.Z.leb with Z.leb in *;
  change IntDef.Z.opp with Z.opp in *.

(** ** Unfolding the monad *)

Ltac unfold_py :=
  unfold mbind, mret, M_bind, M_ret, outcome_bind, outcome_ret, bind, ret, raise, lift,
    try_except, show, session_get, session_set, session_has, obind in *.


(** * The civil calendar *)

Lemma all_from_spec (n : nat) (z : Z) (P : Z -> bool) :
  all_from n z P = true -> forall i : Z, z <= i < z + Z.of_nat n -> P i = true.
Proof.
  revert z. induction n as [|n IH]; simpl; intros z H i Hi; [lia|].
  apply andb_true_iff in H as [H1 H2].
  destruct (decide (i = z)) as [->|Hne]; [exact H1|].
  apply (IH (z + 1)); [exact H2 | lia].
Qed.

Lemma yoe_of_step (r : Z) : 0 <= r < 146096 -> yoe_of r <= yoe_of (r + 1).
Proof.
  intros Hr. unfold yoe_of. apply Z.div_le_mono; [lia|].
  Z.div_mod_to_equations. lia.
Qed.

Lemma yoe_of_mono (a b : Z) : 0 <= a <= b -> b <= 146096 -> yoe_of a <= yoe_of b.
Proof.
  intros Hab Hb.
  replace b with (a + Z.of_nat (Z.to_nat (b - a))) in * by lia.
  induction (Z.to_nat (b - a)) as [|n IH]; [rewrite Z.add_0_r; lia|].
  etransitivity; [apply IH; lia|].
  replace (a + Z.of_nat (S n)) with (a + Z.of_nat n + 1) by lia.
  apply yoe_of_step. lia.
Qed.

Lemma years_checked : all_from 400 0 year_ok = true.
Proof. vm_cast_no_check (eq_refl true). Qed.

Lemma year_facts (y : Z) :
  0 <= y < 400 ->
  yoe_of (year_start y) = y /\
  yoe_of (year_start (y + 1) - 1) = y /\
  year_start (y + 1) - year_start y = (if is_leap (y + 1) then 366 else 365).
Proof.
  intros Hy.
  pose proof (all_from_spec 400 0 year_ok years_checked y ltac:(lia)) as H.
  unfold year_ok in H. rewrite !andb_true_iff, !Z.eqb_eq in H. tauto.
Qed.

Lemma year_start_bounds (y : Z) : 0 <= y <= 400 -> 0 <= year_start y <= 146097.
Proof. intros Hy. unfold year_start. Z.div_mod_to_equations. lia. Qed.

Lemma yoe_of_locates (r : Z) :
  0 <= r <= 146096 ->
  0 <= yoe_of r < 400 /\ year_start (yoe_of r) <= r < year_start (yoe_of r + 1).
Proof.
  intros Hr.
  assert (0 <= yoe_of r < 400) as Hy.
  { unfold yoe_of. Z.div_mod_to_equations. lia. }
  split; [exact Hy|].
  destruct (year_facts (yoe_of r) Hy) as (_ & Hlast & _).
  split.
  - destruct (Z_le_gt_dec (year_start (yoe_of r)) r) as [Hle | Hgt]; [exact Hle | exfalso].
    assert (1 <= yoe_of r) as Hpos.
    { destruct (Z_le_gt_dec 1 (yoe_of r)); [assumption|].
      assert (yoe_of r = 0) as E by lia. rewrite E in Hgt.
      change (year_start 0) with 0 in Hgt. lia. }
    destruct (year_facts (yoe_of r - 1) ltac:(lia)) as (_ & Hprev & _).
    replace (yoe_of r - 1 + 1) with (yoe_of r) in Hprev by lia.
    pose proof (year_start_bounds (yoe_of r) ltac:(lia)).
    pose proof (yoe_of_mono r (year_start (yoe_of r) - 1) ltac:(lia) ltac:(lia)). lia.
  - destruct (Z_lt_ge_dec r (year_start (yoe_of r + 1))) as [Hlt | Hge]; [exact Hlt | exfalso].
    assert (yoe_of r + 1 < 400) as Hnext.
    { destruct (Z_lt_ge_dec (yoe_of r + 1) 400); [assumption|].
      assert (yoe_of r + 1 = 400) as E by lia. rewrite E in Hge.
      change (year_start 400) with 146097 in Hge. lia. }
    destruct (year_facts (yoe_of r + 1) ltac:(lia)) as (Hfirst & _ & _).
    pose proof (year_start_bounds (yoe_of r + 1) ltac:(lia)).
    pose proof (yoe_of_mono (year_start (yoe_of r + 1)) r ltac:(lia) ltac:(lia)). lia.
Qed.

(** The year of the era and the day of that year, of a day of the era. *)
Lemma yoe_of_day (y doy : Z) :
  0 <= y < 400 -> 0 <= doy -> year_start y + doy < year_start (y + 1) ->
  yoe_of (year_start y + doy) = y.
Proof.
  intros Hy Hdoy Hin.
  destruct (year_facts y Hy) as (Hfirst & Hlast & _).
  pose proof (year_start_bounds y ltac:(lia)).
  pose proof (year_start_bounds (y + 1) ltac:(lia)).
  pose proof (yoe_of_mono (year_start y) (year_start y + doy) ltac:(lia) ltac:(lia)).
  pose proof (yoe_of_mono (year_start y + doy) (year_start (y + 1) - 1) ltac:(lia) ltac:(lia)).
  lia.
Qed.

Lemma civil_in_era_unfold (q r : Z) :
  0 <= r <= 146096 ->
  civil_in_era q r
  = (yoe_of r + q * 400 + (if fst (month_day (r - year_start (yoe_of r))) <=? 2 then 1 else 0),
     fst (month_day (r - year_start (yoe_of r))),
     snd (month_day (r - year_start (yoe_of r)))).
Proof.
  intros Hr.
  assert (0 <= yoe_of r < 400) as Hy by (unfold yoe_of; Z.div_mod_to_equations; lia).
  assert (year_start (yoe_of r) = 365 * yoe_of r + yoe_of r / 4 - yoe_of r / 100) as ->
    by (unfold year_start; rewrite (Z.div_small (yoe_of r) 400) by lia; lia).
  reflexivity.
Qed.

Lemma common_year_checked : all_from 364 0 (in_year_step_ok false) = true.
Proof. vm_cast_no_check (eq_refl true). Qed.

Lemma leap_year_checked : all_from 365 0 (in_year_step_ok true) = true.
Proof. vm_cast_no_check (eq_refl true). Qed.

Lemma in_year_step (leap : bool) (doy : Z) :
  0 <= doy -> doy + 1 < (if leap then 366 else 365) -> in_year_step_ok leap doy = true.
Proof.
  intros H0 H1. destruct leap.
  - apply (all_from_spec 365 0 (in_year_step_ok true) leap_year_checked). lia.
  - apply (all_from_spec 364 0 (in_year_step_ok false) common_year_checked). lia.
Qed.

Lemma days_in_month_not_february (y m : Z) :
  m <> 2 -> days_in_month y m = days_in_month 1 m.
Proof.
  intros Hm. unfold days_in_month. destruct (Z.eqb_spec m 2); [contradiction | reflexivity].
Qed.

Lemma next_day_in_year (y doy : Z) :
  in_year_step_ok (is_leap (y + 1)) doy = true ->
  next_day (y + (if fst (month_day doy) <=? 2 then 1 else 0),
            fst (month_day doy), snd (month_day doy))
  = (y + (if fst (month_day (doy + 1)) <=? 2 then 1 else 0),
     fst (month_day (doy + 1)), snd (month_day (doy + 1))).
Proof.
  unfold in_year_step_ok.
  destruct (month_day doy) as [m d], (month_day (doy + 1)) as [m' d']. cbn [fst snd].
  intros H. fold (carry m). fold (carry m'). unfold next_day.
  assert (days_in_month (y + carry m) m
          = (if m =? 2 then if is_leap (y + 1) then 29 else 28 else days_in_month 1 m)) as ->.
  { destruct (Z.eqb_spec m 2) as [-> | Hm].
    - reflexivity.
    - apply days_in_month_not_february. exact Hm. }
  destruct (d <? _).
  - apply andb_true_iff in H as [->%Z.eqb_eq ->%Z.eqb_eq]. reflexivity.
  - destruct (m <? 12) eqn:Em.
    + apply andb_true_iff in H as [H Hc%Z.eqb_eq].
      apply andb_true_iff in H as [->%Z.eqb_eq ->%Z.eqb_eq]. rewrite Hc. reflexivity.
    + apply andb_true_iff in H as [->%Z.eqb_eq ->%Z.eqb_eq].
      apply Z.ltb_ge in Em. unfold carry.
      destruct (Z.leb_spec m 2); [lia|]. simpl. f_equal. f_equal. lia.
Qed.

Lemma era_step (r : Z) :
  0 <= r < 146096 -> civil_in_era 0 (r + 1) = next_day (civil_in_era 0 r).
Proof.
  intros Hr.
  rewrite (civil_in_era_unfold 0 r), (civil_in_era_unfold 0 (r + 1)) by lia.
  destruct (yoe_of_locates r ltac:(lia)) as (Hy & Hlo & Hhi).
  set (y := yoe_of r) in *.
  destruct (year_facts y Hy) as (_ & _ & Hlen).
  replace (y + 0 * 400) with y by lia.
  destruct (Z_lt_ge_dec (r + 1) (year_start (y + 1))) as [Hin | Hout].
  - assert (yoe_of (r + 1) = y) as ->.
    { replace (r + 1) with (year_start y + (r - year_start y + 1)) by lia.
      apply yoe_of_day; [exact Hy | lia | lia]. }
    replace (r + 1 - year_start y) with (r - year_start y + 1) by lia.
    replace (y + 0 * 400) with y by lia.
    symmetry. apply (next_day_in_year y (r - year_start y)).
    apply in_year_step; [lia|].
    destruct (is_leap (y + 1)); lia.
  - assert (r + 1 = year_start (y + 1)) as Enext by lia.
    assert (y + 1 < 400) as Hnext.
    { destruct (Z_lt_ge_dec (y + 1) 400); [assumption|].
      assert (y + 1 = 400) as E by lia. rewrite E in Enext.
      change (year_start 400) with 146097 in Enext. lia. }
    destruct (year_facts (y + 1) ltac:(lia)) as (Hfirst & _ & _).
    rewrite Enext, Hfirst, Z.sub_diag.
    change (month_day 0) with (3, 1). cbn [fst snd].
    destruct (is_leap (y + 1)) eqn:Eleap.
    + replace (r - year_start y) with 365 by lia.
      change (month_day 365) with (2, 29). cbn [fst snd].
      change (2 <=? 2) with true. change (3 <=? 2) with false. cbv iota.
      unfold next_day, days_in_month. change (2 =? 2) with true. cbv iota.
      rewrite Eleap. change (29 <? 29) with false. change (2 <? 12) with true. cbv iota.
      f_equal. f_equal. lia.
    + replace (r - year_start y) with 364 by lia.
      change (month_day 364) with (2, 28). cbn [fst snd].
      change (2 <=? 2) with true. change (3 <=? 2) with false. cbv iota.
      unfold next_day, days_in_month. change (2 =? 2) with true. cbv iota.
      rewrite Eleap. change (28 <? 28) with false. change (2 <? 12) with true. cbv iota.
      f_equal. f_equal. lia.
Qed.

Lemma civil_in_era_shift (q r : Z) :
  civil_in_era q r = shift_year (400 * q) (civil_in_era 0 r).
Proof.
  unfold civil_in_era, shift_year. cbv zeta. f_equal. f_equal. lia.
Qed.

Lemma is_leap_shift (y q : Z) : is_leap (y + 400 * q) = is_leap y.
Proof.
  unfold is_leap.
  replace ((y + 400 * q) mod 4) with (y mod 4)
    by (replace (y + 400 * q) with (y + (100 * q) * 4) by lia; now rewrite Z_mod_plus_full).
  replace ((y + 400 * q) mod 100) with (y mod 100)
    by (replace (y + 400 * q) with (y + (4 * q) * 100) by lia; now rewrite Z_mod_plus_full).
  replace ((y + 400 * q) mod 400) with (y mod 400)
    by (replace (y + 400 * q) with (y + q * 400) by lia; now rewrite Z_mod_plus_full).
  reflexivity.
Qed.

Lemma next_day_shift (q : Z) (ymd : Z * Z * Z) :
  next_day (shift_year (400 * q) ymd) = shift_year (400 * q) (next_day ymd).
Proof.
  destruct ymd as [[y m] d]. unfold next_day, shift_year, days_in_month.
  rewrite is_leap_shift.
  repeat match goal with |- context [if ?b then _ else _] => destruct b end;
    f_equal; try f_equal; lia.
Qed.

(** The day number and the civil calendar agree on what the next day is. *)
Lemma civil_from_days_succ (z : Z) :
  civil_from_days (z + 1) = next_day (civil_from_days z).
Proof.
  unfold civil_from_days. cbv zeta.
  set (z' := z + 719468).
  replace (z + 1 + 719468) with (z' + 1) by (unfold z'; lia).
  pose proof (Z.div_mod z' 146097 ltac:(lia)) as Hdm.
  pose proof (Z.mod_pos_bound z' 146097 ltac:(lia)) as Hr.
  set (q := z' / 146097) in *. set (r := z' mod 146097) in *.
  destruct (decide (r < 146096)) as [Hlt|Hge].
  - assert ((z' + 1) / 146097 = q) as ->
      by (symmetry; apply (Z.div_unique _ _ q (r + 1)); lia).
    assert ((z' + 1) mod 146097 = r + 1) as ->
      by (symmetry; apply (Z.mod_unique _ _ q (r + 1)); lia).
    rewrite (civil_in_era_shift q (r + 1)), (civil_in_era_shift q r).
    rewrite era_step by lia. now rewrite next_day_shift.
  - assert (r = 146096) as Hr' by lia.
    assert ((z' + 1) / 146097 = q + 1) as ->
      by (symmetry; apply (Z.div_unique _ _ (q + 1) 0); lia).
    assert ((z' + 1) mod 146097 = 0) as ->
      by (symmetry; apply (Z.mod_unique _ _ (q + 1) 0); lia).
    rewrite Hr'.
    rewrite (civil_in_era_shift (q + 1) 0), (civil_in_era_shift q 146096).
    rewrite next_day_shift.
    replace (civil_in_era 0 0) with (0, 3, 1) by (vm_compute; reflexivity).
    replace (next_day (civil_in_era 0 146096)) with (400, 3, 1) by (vm_compute; reflexivity).
    unfold shift_year. f_equal. f_equal. lia.
Qed.

Lemma day_number_add (t : Timestamp) (i : Z) :
  day_number (t + timedelta i) = day_number t + i.
Proof.
  unfold day_number, timedelta. rewrite Z.div_add by (unfold NS_PER_DAY; lia). reflexivity.
Qed.

Lemma date_of_add (t : Timestamp) (n : nat) :
  date_of (t + timedelta (Z.of_nat n)) = days_after n (date_of t).
Proof.
  unfold date_of. rewrite day_number_add.
  induction n as [|n IH]; simpl days_after.
  - f_equal. lia.
  - rewrite <- IH. replace (day_number t + Z.of_nat (S n)) with (day_number t + Z.of_nat n + 1) by lia.
    apply civil_from_days_succ.
Qed.

Lemma common_dates_checked : all_from 12 1 (month_dates_ok false) = true.
Proof. vm_cast_no_check (eq_refl true). Qed.

Lemma leap_dates_checked : all_from 12 1 (month_dates_ok true) = true.
Proof. vm_cast_no_check (eq_refl true). Qed.

Lemma month_date (leap : bool) (m d : Z) :
  1 <= m <= 12 ->
  1 <= d <= (if m =? 2 then (if leap then 29 else 28) else days_in_month 1 m) ->
  0 <= doy_of m d < (if leap then 366 else 365) /\ month_day (doy_of m d) = (m, d).
Proof.
  intros Hm Hd.
  assert (d <= 31) as Hd31.
  { unfold days_in_month in Hd.
    repeat match type of Hd with context [if ?b then _ else _] => destruct b end; lia. }
  assert (month_dates_ok leap m = true) as H.
  { destruct leap.
    - apply (all_from_spec 12 1 (month_dates_ok true) leap_dates_checked). lia.
    - apply (all_from_spec 12 1 (month_dates_ok false) common_dates_checked). lia. }
  unfold month_dates_ok in H.
  pose proof (all_from_spec 31 1 (month_date_ok leap m) H d ltac:(lia)) as H'.
  unfold month_date_ok in H'.
  apply orb_true_iff in H' as [H' | H'].
  - apply negb_true_iff, Z.leb_gt in H'. lia.
  - rewrite !andb_true_iff in H'. destruct H' as [[[H1 H2] H3] H4].
    apply Z.leb_le in H1. apply Z.ltb_lt in H2. apply Z.eqb_eq in H3, H4.
    split; [lia|]. destruct (month_day (doy_of m d)); simpl in *. congruence.
Qed.

(** A civil date is read back from its day number. *)
Lemma civil_from_days_from_civil (y m d : Z) :
  1 <= m <= 12 -> 1 <= d <= days_in_month y m ->
  civil_from_days (days_from_civil y m d) = (y, m, d).
Proof.
  intros Hm Hd.
  unfold days_from_civil. cbv zeta. fold (doy_of m d).
  set (y' := if m <=? 2 then y - 1 else y).
  pose proof (Z.div_mod y' 400 ltac:(lia)) as Hdm.
  pose proof (Z.mod_pos_bound y' 400 ltac:(lia)) as Hyoe.
  set (era := y' / 400) in *.
  assert (y' - era * 400 = y' mod 400) as -> by lia.
  set (yoe := y' mod 400) in *.
  assert (is_leap y = is_leap (yoe + 1) \/ m <> 2) as Hleap.
  { destruct (Z.eq_dec m 2) as [-> | Hne]; [left | right; exact Hne].
    replace y with (yoe + 1 + 400 * era) by (unfold y' in *; simpl in *; lia).
    apply is_leap_shift. }
  destruct (month_date (is_leap (yoe + 1)) m d Hm) as (Hdoy & Hmd).
  { unfold days_in_month in Hd |- *.
    destruct (Z.eqb_spec m 2) as [-> | Hne].
    - destruct Hleap as [<- | Hne]; [exact Hd | contradiction].
    - destruct (Z.eqb_spec m 2); [contradiction | exact Hd]. }
  destruct (year_facts yoe Hyoe) as (_ & _ & Hlen).
  pose proof (year_start_bounds yoe ltac:(lia)) as Hs0.
  pose proof (year_start_bounds (yoe + 1) ltac:(lia)) as Hs1.
  assert (yoe * 365 + yoe / 4 - yoe / 100 = year_start yoe) as ->
    by (unfold year_start; rewrite (Z.div_small yoe 400) by lia; lia).
  assert (year_start yoe + doy_of m d < year_start (yoe + 1)) as Hin
    by (destruct (is_leap (yoe + 1)); lia).
  unfold civil_from_days. cbv zeta.
  replace (era * 146097 + (year_start yoe + doy_of m d) - 719468 + 719468)
    with (year_start yoe + doy_of m d + era * 146097) by lia.
  rewrite Z.div_add, Z_mod_plus_full by lia.
  rewrite Z.div_small, Z.mod_small by lia. rewrite Z.add_0_l.
  rewrite civil_in_era_unfold by lia.
  rewrite (yoe_of_day yoe (doy_of m d)) by lia.
  replace (year_start yoe + doy_of m d - year_start yoe) with (doy_of m d) by lia.
  rewrite Hmd. cbn [fst snd].
  f_equal. f_equal. unfold y' in *. destruct (m <=? 2); lia.
Qed.

(** A date string that parses is midnight of a day whose calendar date
    [date_of] gives back. *)
Lemma parse_date_date_of (s : string) (t : Timestamp) :
  parse_date s = Some t ->
  exists y m d : Z,
    1 <= m <= 12 /\ 1 <= d <= days_in_month y m /\
    t = days_from_civil y m d * NS_PER_DAY /\ date_of t = (y, m, d).
Proof.
  unfold parse_date.
  destruct (list_ascii_of_string s) as [|y1 [|y2 [|y3 [|y4 [|s1 [|m1 [|m2 [|s2 [|d1 [|d2 [|]]]]]]]]]]];
    try discriminate.
  destruct (Ascii.eqb s1 "-" && Ascii.eqb s2 "-"); [|discriminate].
  destruct (number_of 0 [y1; y2; y3; y4]) as [y|]; [|discriminate].
  destruct (number_of 0 [m1; m2]) as [m|]; [|discriminate].
  destruct (number_of 0 [d1; d2]) as [d|]; [|discriminate].
  destruct ((1 <=? y) && (1 <=? m) && (m <=? 12) && (1 <=? d) && (d <=? days_in_month y m))
    eqn:Hvalid; [|discriminate].
  intros [= <-].
  repeat (apply andb_true_iff in Hvalid as [Hvalid ?]).
  exists y, m, d. split; [lia|]. split; [lia|]. split; [reflexivity|].
  unfold date_of, day_number. rewrite Z.div_mul by (unfold NS_PER_DAY; lia).
  apply civil_from_days_from_civil; lia.
Qed.

(** * The client functions, run *)

Section ClientFacts.

Variable backend : list Request -> Request -> HttpOutcome.
Variable provider : list json -> json -> ProviderOutcome.

(** The [try] block shared by the four functions that call the backend. *)
Lemma request_block (r : Request) (handler : exn -> M json) (w : World) :
  try_except
    (response ← requests_call backend r;
     raise_for_status response;;
     response_json response)
    is_RequestException handler w
  = match request_error (backend (backend_calls w) r) with
    | Some e => handler e (log_backend r w)
    | None => (Ok (decoded (backend (backend_calls w) r)), log_backend r w)
    end.
Proof.
  unfold_py. unfold requests_call, raise_for_status, response_json, request_error, error_status.
  destruct (backend (backend_calls w) r) as [k msg | s [v|]]; simpl; [reflexivity | |];
    destruct ((400 <=? s) && (s <? 600)); reflexivity.
Qed.

Lemma fetch_tickers_run (w : World) :
  fetch_tickers backend w
  = match request_error (backend (backend_calls w) GET_tickers) with
    | Some e => (Ok (JArr []),
                 log_page (st_error [Lit "Error fetching tickers: "; Exc e]) (log_backend GET_tickers w))
    | None => (Ok (decoded (backend (backend_calls w) GET_tickers)), log_backend GET_tickers w)
    end.
Proof.
  unfold fetch_tickers. rewrite request_block.
  destruct (request_error _); reflexivity.
Qed.

Lemma is_valid_ticker_run (ticker : json) (w : World) :
  is_valid_ticker provider ticker w
  = (Ok (has_rows (provider (provider_calls w) ticker)), log_provider ticker w).
Proof.
  unfold is_valid_ticker, yf_history. unfold_py.
  destruct (provider (provider_calls w) ticker) as [msg | [|n]]; reflexivity.
Qed.

End ClientFacts.

Lemma request_error_cases (o : HttpOutcome) :
  request_error o <> None <->
  (exists k msg, o = HttpFailure k msg) \/
  (exists s b, o = HttpResponse s b /\ (400 <= s < 600 \/ b = None)).
Proof.
  unfold request_error, error_status. split.
  - destruct o as [k msg | s [v|]]; intros H.
    + left. eauto.
    + right. exists s, (Some v). split; [reflexivity|]. left.
      destruct ((400 <=? s) && (s <? 600)) eqn:E; [|congruence].
      apply andb_true_iff in E as [E1%Z.leb_le E2%Z.ltb_lt]. lia.
    + right. exists s, None. auto.
  - intros [(k & msg & ->) | (s & b & -> & [Hs | ->])]; [discriminate | |].
    + assert ((400 <=? s) && (s <? 600) = true) as ->; [|discriminate].
      apply andb_true_iff. split; [apply Z.leb_le | apply Z.ltb_lt]; lia.
    + destruct ((400 <=? s) && (s <? 600)); discriminate.
Qed.

(** * The client functions

    What each of them returns, and what it leaves in the world. *)

(** C3. [is_valid_ticker] never raises; it answers [True] exactly when the
    provider's one-day history has at least one row, and [False] whenever
    the provider raises. *)
Theorem is_valid_ticker_iff_rows
    (provider : list json -> json -> ProviderOutcome) (ticker : json) (w : World) :
  exists b : bool,
    is_valid_ticker provider ticker w = (Ok b, log_provider ticker w) /\
    (b = true <->
       exists rows : nat, provider (provider_calls w) ticker = ProviderFrame rows /\ (0 < rows)%nat) /\
    (forall msg, provider (provider_calls w) ticker = ProviderRaises msg -> b = false).
Proof.
  rewrite is_valid_ticker_run. eexists. split; [reflexivity|].
  destruct (provider (provider_calls w) ticker) as [msg | [|n]]; simpl.
  - split; [|reflexivity]. split; [discriminate|]. intros (rows & H & _). discriminate.
  - split; [|discriminate]. split; [discriminate|]. intros (rows & [= <-] & H). lia.
  - split; [|discriminate]. split; [|reflexivity]. intros _. exists (S n). split; [reflexivity | lia].
Qed.


(** C2. When the validity check of a candidate answers [False],
    [add_new_ticker] makes no call to the backend, puts the message
    "Invalid ticker: X" on the page as an error, and returns [None]. *)
Theorem add_new_ticker_invalid
    (backend : list Request -> Request -> HttpOutcome)
    (provider : list json -> json -> ProviderOutcome) (X : string) (w : World) :
  fst (is_valid_ticker provider (JStr X) w) = Ok false ->
  add_new_ticker backend provider (JStr X) w
  = (Ok JNull, log_page (st_error [Lit "Invalid ticker: "; Val (JStr X)]) (log_provider (JStr X) w))
  /\ backend_calls (snd (add_new_ticker backend provider (JStr X) w)) = backend_calls w.
Proof.
  intros Hinvalid. rewrite is_valid_ticker_run in Hinvalid. simpl in Hinvalid.
  assert (add_new_ticker backend provider (JStr X) w
          = (Ok JNull, log_page (st_error [Lit "Invalid ticker: "; Val (JStr X)])
                         (log_provider (JStr X) w))) as Hrun.
  { unfold add_new_ticker. unfold mbind at 1, M_bind at 1, bind at 1.
    rewrite is_valid_ticker_run. injection Hinvalid as ->. reflexivity. }
  rewrite Hrun. split; reflexivity.
Qed.

Section Runs.

Variable backend : list Request -> Request -> HttpOutcome.
Variable provider : list json -> json -> ProviderOutcome.

Lemma fetch_historical_data_run (ticker : json) (w : World) :
  fetch_historical_data backend ticker w
  = match request_error (backend (backend_calls w) (GET_historical_data ticker)) with
    | Some e => (Ok JNull,
                 log_page (st_error [Lit "Error fetching historical data for "; Val ticker;
                                     Lit ": "; Exc e])
                   (log_backend (GET_historical_data ticker) w))
    | None => (Ok (decoded (backend (backend_calls w) (GET_historical_data ticker))),
               log_backend (GET_historical_data ticker) w)
    end.
Proof.
  unfold fetch_historical_data. rewrite request_block.
  destruct (request_error _); reflexivity.
Qed.

Lemma fetch_predictions_run (ticker : json) (w : World) :
  fetch_predictions backend ticker w
  = match request_error (backend (backend_calls w) (POST_predict ticker)) with
    | Some e => (Ok JNull,
                 log_page (st_error [Lit "Error fetching predictions for "; Val ticker;
                                     Lit ": "; Exc e])
                   (log_backend (POST_predict ticker) w))
    | None => (Ok (decoded (backend (backend_calls w) (POST_predict ticker))),
               log_backend (POST_predict ticker) w)
    end.
Proof.
  unfold fetch_predictions. rewrite request_block.
  destruct (request_error _); reflexivity.
Qed.

Lemma add_new_ticker_run (ticker : json) (w : World) :
  add_new_ticker backend provider ticker w
  = if has_rows (provider (provider_calls w) ticker) then
      match request_error (backend (backend_calls w) (POST_add ticker)) with
      | Some e => (Ok JNull,
                   log_page (st_error [Lit "Error adding ticker "; Val ticker; Lit ": "; Exc e])
                     (log_backend (POST_add ticker) (log_provider ticker w)))
      | None => (Ok (decoded (backend (backend_calls w) (POST_add ticker))),
                 log_backend (POST_add ticker) (log_provider ticker w))
      end
    else (Ok JNull, log_page (st_error [Lit "Invalid ticker: "; Val ticker]) (log_provider ticker w)).
Proof.
  unfold add_new_ticker. unfold mbind at 1, M_bind at 1, bind at 1.
  rewrite is_valid_ticker_run.
  destruct (has_rows (provider (provider_calls w) ticker)); simpl; [|reflexivity].
  rewrite request_block. simpl.
  destruct (request_error _); reflexivity.
Qed.

End Runs.

Lemma truthy_obj_lookup (m : gmap string json) (k : string) (v : json) :
  m !! k = Some v -> truthy (JObj m) = true.
Proof.
  intros H. simpl. destruct (map_size m) eqn:E; [|reflexivity].
  apply map_size_empty_iff in E. subst m. rewrite lookup_empty in H. discriminate.
Qed.

(** C10. The add call succeeds with a 2xx status but its decoded body is
    false in Python's sense: the form ends without a success message,
    without fetching the ticker list again and without a rerun; the only
    call made to the backend is the add itself. *)
Theorem add_form_skips_success_on_falsy_body
    (backend : list Request -> Request -> HttpOutcome)
    (provider : list json -> json -> ProviderOutcome)
    (u : UserInput) (w : World) (s : Z) (v : json) :
  clicked u = true ->
  typed u <> "" ->
  has_rows (provider (provider_calls w) (JStr (typed u))) = true ->
  backend (backend_calls w) (POST_add (JStr (typed u))) = HttpResponse s (Some v) ->
  200 <= s < 300 ->
  truthy v = false ->
  add_ticker_form backend provider u w
  = (Ok tt,
     mkWorld (session_state w)
       (page w ++ [st_header "Add Ticker"; st_text_input "Enter New Ticker"; st_button "Add Ticker"])
       (backend_calls w ++ [POST_add (JStr (typed u))])
       (provider_calls w ++ [JStr (typed u)])).
Proof.
  intros Hclick Htyped Hvalid Hadd Hs Hfalsy.
  unfold add_ticker_form. rewrite Hclick.
  assert (truthy (JStr (typed u)) = true) as ->.
  { simpl. destruct (String.eqb_spec (typed u) ""); [contradiction | reflexivity]. }
  unfold_py. simpl.
  rewrite add_new_ticker_run. simpl. rewrite Hvalid, Hadd. simpl.
  assert (error_status s = false) as ->.
  { unfold error_status. apply andb_false_iff. left. apply Z.leb_gt. lia. }
  rewrite Hfalsy. unfold log_backend, log_provider, log_page. simpl.
  rewrite <- !app_assoc. reflexivity.
Qed.

(** C6 (as the code has it). For a body whose [dates] list is empty,
    [fetch_historical_data] returns the decoded body itself; it is the main
    area that treats it as no data: no frame is built, no prediction is
    asked for, and the warning is shown. *)
Theorem empty_dates_is_no_data_in_main_area
    (backend : list Request -> Request -> HttpOutcome) (mktime : Z -> Z)
    (ticker : json) (w : World) (s : Z) (m : gmap string json) :
  session_state w !! "selected_ticker" = Some ticker ->
  truthy ticker = true ->
  backend (backend_calls w) (GET_historical_data ticker) = HttpResponse s (Some (JObj m)) ->
  error_status s = false ->
  m !! "dates" = Some (JArr []) ->
  fetch_historical_data backend ticker w
  = (Ok (JObj m), log_backend (GET_historical_data ticker) w)
  /\ main_area backend mktime w
     = (Ok tt,
        log_page (st_warning
                    "Could not retrieve data, please make sure ticker has valid historical data")
          (log_backend (GET_historical_data ticker) w)).
Proof.
  intros Hsel Hticker Hanswer Hstatus Hdates.
  assert (fetch_historical_data backend ticker w
          = (Ok (JObj m), log_backend (GET_historical_data ticker) w)) as Hfetch.
  { rewrite fetch_historical_data_run, Hanswer. simpl. rewrite Hstatus. reflexivity. }
  split; [exact Hfetch|].
  unfold main_area. unfold mbind at 1, M_bind at 1, bind at 1, session_get at 1.
  rewrite Hsel, Hticker.
  unfold mbind at 1, M_bind at 1, bind at 1. rewrite Hfetch.
  unfold py_and. rewrite (truthy_obj_lookup m "dates" _ Hdates).
  unfold_py. simpl. rewrite Hdates. reflexivity.
Qed.

(** * The tables *)

Lemma parse_dates_length (l : list json) (ts : list Timestamp) :
  parse_dates l = Ok ts -> length ts = length l.
Proof.
  revert ts. induction l as [|x l IH]; intros ts H; simpl in H.
  - injection H as <-. reflexivity.
  - destruct x; try discriminate.
    destruct (parse_date s); [|discriminate].
    destruct (parse_dates l) as [ts'| |]; simpl in H; try discriminate.
    injection H as <-. simpl. f_equal. apply IH. reflexivity.
Qed.

Lemma zip_rows_length (ds : list Timestamp) (cs : list json) :
  length ds = length cs -> length (zip_rows ds cs) = length ds.
Proof.
  revert cs. induction ds as [|d ds IH]; intros [|c cs] H; simpl in *; try reflexivity; try discriminate.
  f_equal. apply IH. lia.
Qed.

Lemma zip_rows_Date (ds : list Timestamp) (cs : list json) :
  length ds = length cs -> map Date (zip_rows ds cs) = ds.
Proof.
  revert cs. induction ds as [|d ds IH]; intros [|c cs] H; simpl in *; try reflexivity; try discriminate.
  f_equal. apply IH. lia.
Qed.

Lemma zip_rows_Close (ds : list Timestamp) (cs : list json) :
  length ds = length cs -> map Close (zip_rows ds cs) = cs.
Proof.
  revert cs. induction ds as [|d ds IH]; intros [|c cs] H; simpl in *; try reflexivity; try discriminate.
  f_equal. apply IH. lia.
Qed.

Lemma pd_DataFrame_same_length (ds : list Timestamp) (cs : list json) :
  length ds = length cs -> pd_DataFrame ds (JArr cs) = Ok (zip_rows ds cs).
Proof.
  intros H. unfold pd_DataFrame. rewrite H, Nat.eqb_refl. reflexivity.
Qed.

Lemma fold_max_ge (l : list Z) (a : Z) : a <= fold_left Z.max l a.
Proof.
  revert a. induction l as [|x l IH]; intros a; simpl; [lia|].
  specialize (IH (Z.max a x)). lia.
Qed.

Lemma fold_max_upper (l : list Z) (a x : Z) : x ∈ l -> x <= fold_left Z.max l a.
Proof.
  revert a. induction l as [|y l IH]; intros a Hx; simpl.
  - inversion Hx.
  - apply elem_of_cons in Hx as [-> | Hx].
    + pose proof (fold_max_ge l (Z.max a y)). lia.
    + apply IH. exact Hx.
Qed.

Lemma fold_max_attained (l : list Z) (a : Z) :
  fold_left Z.max l a = a \/ fold_left Z.max l a ∈ l.
Proof.
  revert a. induction l as [|y l IH]; intros a; simpl; [left; reflexivity|].
  destruct (IH (Z.max a y)) as [H | H].
  - rewrite H. destruct (Z.max_spec a y) as [[_ ->] | [_ ->]].
    + right. apply elem_of_cons. left. reflexivity.
    + left. reflexivity.
  - right. apply elem_of_cons. right. exact H.
Qed.

(** [Date_max] is the greatest date of a frame with a row. *)
Lemma Date_max_spec (df : DataFrame) :
  df <> [] ->
  exists last : Timestamp,
    Date_max df = Ok last /\
    (forall r, r ∈ df -> Date r <= last) /\
    (exists r, r ∈ df /\ Date r = last).
Proof.
  destruct df as [|r0 rs]; [congruence|]. intros _.
  exists (fold_left Z.max (map Date rs) (Date r0)). split; [reflexivity|]. split.
  - intros r Hr. apply elem_of_cons in Hr as [-> | Hr].
    + apply fold_max_ge.
    + apply fold_max_upper. apply list_elem_of_fmap. exists r. auto.
  - destruct (fold_max_attained (map Date rs) (Date r0)) as [H | H].
    + exists r0. split; [apply elem_of_cons; left; reflexivity | symmetry; exact H].
    + apply list_elem_of_fmap in H as (r & Hr1 & Hr2).
      exists r. split; [apply elem_of_cons; right; exact Hr2 | symmetry; exact Hr1].
Qed.

(** * Integers as floats *)

(** The conversion of an integer to [float64] is exact up to [2 ^ 53] in
    magnitude. *)

Lemma digits2_pos_bounds (p : positive) :
  2 ^ (Zpos (digits2_pos p) - 1) <= Zpos p < 2 ^ Zpos (digits2_pos p).
Proof.
  induction p as [p IH | p IH |]; cbn [digits2_pos].
  - rewrite Pos2Z.inj_succ.
    replace (Z.succ (Zpos (digits2_pos p)) - 1) with (Z.succ (Zpos (digits2_pos p) - 1)) by lia.
    rewrite !Z.pow_succ_r by lia. lia.
  - rewrite Pos2Z.inj_succ.
    replace (Z.succ (Zpos (digits2_pos p)) - 1) with (Z.succ (Zpos (digits2_pos p) - 1)) by lia.
    rewrite !Z.pow_succ_r by lia. lia.
  - simpl. lia.
Qed.

Lemma iter_xO_value (p k : positive) : Zpos (Pos.iter xO p k) = Zpos p * 2 ^ Zpos k.
Proof.
  induction k as [|k IH] using Pos.peano_ind.
  - simpl. lia.
  - rewrite Pos.iter_succ, Pos2Z.inj_succ, Z.pow_succ_r by lia.
    rewrite Pos2Z.inj_xO, IH. lia.
Qed.

Lemma iter_xO_digits (p k : positive) :
  digits2_pos (Pos.iter xO p k) = (digits2_pos p + k)%positive.
Proof.
  induction k as [|k IH] using Pos.peano_ind.
  - simpl. lia.
  - rewrite Pos.iter_succ. cbn [digits2_pos]. rewrite IH. lia.
Qed.

Lemma fexp_binary64 (z : Z) : -1021 <= z -> fexp 53 1024 z = z - 53.
Proof. intros H. unfold fexp, emin. std_Z. lia. Qed.

Lemma binary_round_aux_canonical (s : bool) (m : positive) (e : Z) :
  Zpos (digits2_pos m) = 53 ->
  -1074 <= e <= 971 ->
  binary_round_aux 53 1024 s (Zpos m) e loc_Exact = S754_finite s m e.
Proof.
  intros Hd He. unfold binary_round_aux, shr_fexp. cbn [Zdigits2 shr_record_of_loc]. std_Z.
  rewrite Hd, fexp_binary64 by lia.
  replace (53 + e - 53 - e) with 0 by lia.
  cbn [shr shr_m round_nearest_even loc_of_shr_record Zdigits2 shr_record_of_loc].
  rewrite Hd, fexp_binary64 by lia.
  replace (53 + e - 53 - e) with 0 by lia.
  cbn [shr shr_m].
  assert ((e <=? 1024 - 53) = true) as -> by (apply Z.leb_le; lia).
  reflexivity.
Qed.

Lemma binary_round_exact (s : bool) (p : positive) :
  Zpos p <= 2 ^ 53 ->
  int_of_float (binary_round 53 1024 s p 0) = Some (cond_Zopp s (Zpos p)).
Proof.
  intros Hp. pose proof (digits2_pos_bounds p) as [Hlow Hhigh].
  assert (Zpos (digits2_pos p) <= 54) as Hd.
  { apply Z.nlt_ge. intros H.
    assert (2 ^ 54 <= 2 ^ (Zpos (digits2_pos p) - 1)) by (apply Z.pow_le_mono_r; lia).
    change (2 ^ 54) with (2 * 2 ^ 53) in *. lia. }
  destruct (Z.eq_dec (Zpos (digits2_pos p)) 54) as [E54 | N54].
  - assert (p = 9007199254740992%positive) as ->.
    { rewrite E54 in Hlow. change (2 ^ (54 - 1)) with (2 ^ 53) in Hlow.
      change (2 ^ 53) with 9007199254740992 in *. lia. }
    destruct s; reflexivity.
  - unfold binary_round, shl_align. std_Z.
    rewrite Z.add_0_r, Z.sub_0_r, fexp_binary64 by lia.
    destruct (Zpos (digits2_pos p) - 53) as [|q|k] eqn:Ed; [| lia |].
    + rewrite binary_round_aux_canonical by lia.
      cbn [int_of_float]. change (0 <=? 0) with true. cbv iota.
      rewrite Z.pow_0_r, Z.mul_1_r. reflexivity.
    + rewrite binary_round_aux_canonical by (rewrite ?iter_xO_digits; lia).
      cbn [int_of_float]. change (0 <=? Zneg k) with false. cbv iota.
      change (- Zneg k) with (Zpos k). rewrite iter_xO_value.
      rewrite Z.mod_mul by lia. change (0 =? 0) with true. cbv iota.
      rewrite Z.div_mul by lia. reflexivity.
Qed.

Lemma float_of_int_exact (n : Z) :
  Z.abs n <= 2 ^ 53 -> int_of_float (float_of_int n) = Some n.
Proof.
  intros Hn. destruct n as [|p|p]; unfold float_of_int, binary_normalize.
  - reflexivity.
  - apply (binary_round_exact false). lia.
  - apply (binary_round_exact true). lia.
Qed.

(** * The tables, combined *)

Lemma prediction_dates_of_seven (t : Timestamp) :
  prediction_dates_of t = map (fun i => t + timedelta i) [1; 2; 3; 4; 5; 6; 7].
Proof. reflexivity. Qed.

(** ** The type of a column *)

Lemma is_int64_is_number (vs : list json) :
  forallb is_int64 vs = true -> forallb is_number vs = true.
Proof.
  intros H. apply forallb_forall. intros v Hv.
  pose proof (proj1 (forallb_forall _ _) H v Hv) as Hint.
  destruct v; try discriminate. exact Hint.
Qed.

Lemma column_dtype_numbers (vs : list json) :
  vs <> [] -> forallb is_number vs = true -> column_dtype vs = Ok (numbers_dtype vs).
Proof.
  intros Hvs Hnum. destruct vs as [|v vs]; [contradiction|].
  unfold column_dtype, numbers_dtype. rewrite Hnum.
  destruct (forallb is_int64 (v :: vs)); reflexivity.
Qed.

Lemma common_dtype_numbers (a b : list json) :
  common_dtype (numbers_dtype a) (numbers_dtype b) = numbers_dtype (a ++ b).
Proof.
  unfold numbers_dtype. rewrite forallb_app.
  destruct (forallb is_int64 a), (forallb is_int64 b); reflexivity.
Qed.

Lemma astype_int64 (vs : list json) : map (astype int64) vs = vs.
Proof. induction vs as [|v vs IH]; simpl; [|rewrite IH]; reflexivity. Qed.

Lemma rows_astype_int64 (df : DataFrame) :
  map (fun r => mkRow (Date r) (astype int64 (Close r))) df = df.
Proof.
  induction df as [|[d c] df IH]; [reflexivity|].
  cbn [map Date Close astype]. f_equal. exact IH.
Qed.

Lemma astype_same_number (t : dtype) (v : json) :
  exact_in_float64 v = true -> same_number v (astype t v).
Proof.
  intros Hexact. destruct t; [left; reflexivity|].
  destruct v; try (left; reflexivity).
  right. exists n, (float_of_int n). split; [reflexivity|]. split; [reflexivity|].
  apply float_of_int_exact. apply Z.leb_le. exact Hexact.
Qed.

Lemma astype_same_numbers (t : dtype) (vs : list json) :
  forallb exact_in_float64 vs = true -> Forall2 same_number vs (map (astype t) vs).
Proof.
  induction vs as [|v vs IH]; simpl; intros H; [constructor|].
  apply andb_true_iff in H as [Hv Hvs].
  constructor; [apply astype_same_number; exact Hv | apply IH; exact Hvs].
Qed.

(** [pd_concat] on two frames of numbers. *)
Lemma pd_concat_numbers (a b : DataFrame) :
  a <> [] -> b <> [] ->
  forallb is_number (map Close a) = true ->
  forallb is_number (map Close b) = true ->
  pd_concat a b
  = Ok (map (fun r => mkRow (Date r) (astype (numbers_dtype (map Close a ++ map Close b)) (Close r)))
          (a ++ b)).
Proof.
  intros Ha Hb Hna Hnb. unfold pd_concat.
  rewrite (column_dtype_numbers (map Close a)), (column_dtype_numbers (map Close b));
    [| destruct b; [contradiction | discriminate] | exact Hnb
     | destruct a; [contradiction | discriminate] | exact Hna].
  unfold mbind, outcome_bind, obind. cbv zeta. rewrite common_dtype_numbers. reflexivity.
Qed.

(** The combined frame of a frame of numbers with a row and 7 predictions
    that are numbers. *)
Lemma combined_frame_ok (df : DataFrame) (preds : list json) :
  df <> [] ->
  length preds = 7%nat ->
  forallb is_number (map Close df) = true ->
  forallb is_number preds = true ->
  exists last : Timestamp,
    Date_max df = Ok last /\
    df_combined_of df (JArr preds)
    = Ok (map (fun r => mkRow (Date r) (astype (numbers_dtype (map Close df ++ preds)) (Close r)))
            (df ++ zip_rows (prediction_dates_of last) preds)).
Proof.
  intros Hdf Hpreds Hcloses Hnumbers.
  destruct (Date_max_spec df Hdf) as (last & Hmax & _).
  assert (length (prediction_dates_of last) = length preds) as Hlen
    by (rewrite Hpreds; reflexivity).
  exists last. split; [exact Hmax|].
  unfold df_combined_of, mbind, outcome_bind, obind. rewrite Hmax. cbv zeta.
  rewrite (pd_DataFrame_same_length _ _ Hlen).
  rewrite pd_concat_numbers; rewrite ?(zip_rows_Close _ _ Hlen); try assumption.
  - reflexivity.
  - destruct preds; [discriminate|]. discriminate.
Qed.

(** C1 (as the code has it). For a historical frame with at least one row
    and exactly 7 predictions, all of them numbers, the combined frame has 7
    more rows.  Its first rows carry the historical dates, unchanged, and
    the historical closes in the type of the combined column: [int64] when
    every close and every prediction is an integer, [float64] otherwise.
    The 7 rows after them carry the 7 predictions in that type, in order, at
    the last historical date plus 1, ..., 7 days, which are the 7 calendar
    days that follow that date.  In an [int64] column the historical rows
    and the predictions are unchanged; in a [float64] column every float is
    unchanged and an integer has become the nearest float, the same number
    for the integers up to [2 ^ 53] in magnitude. *)
Theorem combined_series_appends_seven_days (df : DataFrame) (preds : list json) :
  df <> [] ->
  length preds = 7%nat ->
  forallb is_number (map Close df) = true ->
  forallb is_number preds = true ->
  let t := numbers_dtype (map Close df ++ preds) in
  exists (last : Timestamp) (c : DataFrame),
    Date_max df = Ok last /\
    (forall r, r ∈ df -> Date r <= last) /\
    (exists r, r ∈ df /\ Date r = last) /\
    df_combined_of df (JArr preds) = Ok c /\
    length c = (length df + 7)%nat /\
    map Date (take (length df) c) = map Date df /\
    map Close (take (length df) c) = map (astype t) (map Close df) /\
    map Close (drop (length df) c) = map (astype t) preds /\
    map Date (drop (length df) c) = map (fun i => last + timedelta i) [1; 2; 3; 4; 5; 6; 7] /\
    map (fun r => date_of (Date r)) (drop (length df) c)
    = map (fun n => days_after n (date_of last)) [1; 2; 3; 4; 5; 6; 7]%nat /\
    (t = int64 -> take (length df) c = df /\ map Close (drop (length df) c) = preds) /\
    (forallb exact_in_float64 (map Close df) = true ->
     Forall2 same_number (map Close df) (map Close (take (length df) c))) /\
    (forallb exact_in_float64 preds = true ->
     Forall2 same_number preds (map Close (drop (length df) c))).
Proof.
  intros Hdf Hpreds Hcloses Hnumbers t.
  destruct (Date_max_spec df Hdf) as (last & Hmax & Hupper & Hmember).
  destruct (combined_frame_ok df preds Hdf Hpreds Hcloses Hnumbers) as (last' & Hmax' & Hc).
  rewrite Hmax in Hmax'. injection Hmax' as <-. fold t in Hc.
  assert (length (prediction_dates_of last) = length preds) as Hlen
    by (rewrite Hpreds; reflexivity).
  set (retyped := fun r : Row => mkRow (Date r) (astype t (Close r))) in *.
  assert (forall l : DataFrame, map Date (map retyped l) = map Date l) as Hdates
    by (intros l; rewrite map_map; reflexivity).
  assert (forall l : DataFrame, map Close (map retyped l) = map (astype t) (map Close l))
    as Hvalues by (intros l; rewrite !map_map; reflexivity).
  assert (take (length df) (map retyped (df ++ zip_rows (prediction_dates_of last) preds))
          = map retyped df) as Htake.
  { rewrite map_app. rewrite <- (length_map retyped df) at 1. apply take_app_length. }
  assert (drop (length df) (map retyped (df ++ zip_rows (prediction_dates_of last) preds))
          = map retyped (zip_rows (prediction_dates_of last) preds)) as Hdrop.
  { rewrite map_app. rewrite <- (length_map retyped df) at 1. apply drop_app_length. }
  exists last, (map retyped (df ++ zip_rows (prediction_dates_of last) preds)).
  rewrite Htake, Hdrop, !Hdates, !Hvalues, (zip_rows_Date _ _ Hlen), (zip_rows_Close _ _ Hlen).
  split; [exact Hmax|]. split; [exact Hupper|]. split; [exact Hmember|].
  split; [exact Hc|].
  split.
  { rewrite length_map, length_app, (zip_rows_length _ _ Hlen). reflexivity. }
  split; [reflexivity|]. split; [reflexivity|]. split; [reflexivity|].
  split; [apply prediction_dates_of_seven|].
  split.
  { rewrite <- (map_map Date date_of), Hdates, (zip_rows_Date _ _ Hlen), prediction_dates_of_seven.
    rewrite map_map.
    change [1; 2; 3; 4; 5; 6; 7] with (map Z.of_nat [1; 2; 3; 4; 5; 6; 7]%nat).
    rewrite map_map. apply map_ext. intros n. apply date_of_add. }
  split.
  { intros Ht. unfold retyped. rewrite Ht.
    split; [apply rows_astype_int64 | apply astype_int64]. }
  split; apply astype_same_numbers.
Qed.


(** C8. The end-to-end scenario: the render cycle ends with a chart of 9
    points, the last of them on 2024-01-09 with value 109, whatever the
    local time of the host. *)
Theorem scenario_ends_on_2024_01_09_at_109 (mktime : Z -> Z) :
  exists (w : World) (fig : Figure),
    render scenario_backend no_symbol_provider mktime (mkUserInput 0 "" false) fresh_world
    = (Ok tt, w) /\
    session_state w !! "all_tickers" = Some (JArr [JStr "AAPL"; JStr "MSFT"]) /\
    session_state w !! "selected_ticker" = Some (JStr "AAPL") /\
    last (page w) = Some (st_plotly_chart fig) /\
    length (fig_data fig) = 9%nat /\
    (fun r => (date_of (Date r), Close r)) <$> last (fig_data fig)
    = Some ((2024, 1, 9), JInt 109).
Proof.
  destruct (render scenario_backend no_symbol_provider mktime (mkUserInput 0 "" false)
              fresh_world) as [o w] eqn:E.
  vm_compute in E. injection E as <- <-.
  eexists. eexists. split; [reflexivity|].
  split; [vm_compute; reflexivity|].
  split; [vm_compute; reflexivity|].
  split; [reflexivity|].
  split; vm_compute; reflexivity.
Qed.

(** * The script, block by block *)

(** ** Sequencing *)

Lemma bind_ok {A B : Type} (x : M A) (f : A -> M B) (w w' : World) (a : A) :
  x w = (Ok a, w') -> (x ≫= f) w = f a w'.
Proof. intros H. unfold mbind, M_bind, bind. rewrite H. reflexivity. Qed.

Lemma bind_raise {A B : Type} (x : M A) (f : A -> M B) (w w' : World) (e : exn) :
  x w = (Raise e, w') -> (x ≫= f) w = (Raise e, w').
Proof. intros H. unfold mbind, M_bind, bind. rewrite H. reflexivity. Qed.

Lemma bind_lift_ok {A B : Type} (a : A) (f : A -> M B) (w : World) :
  (lift (Ok a) ≫= f) w = f a w.
Proof. reflexivity. Qed.

Lemma request_error_none (o : HttpOutcome) :
  request_error o = None ->
  exists s v, o = HttpResponse s (Some v) /\ error_status s = false /\ decoded o = v.
Proof.
  unfold request_error. destruct o as [k msg | s [v|]]; [discriminate | |].
  - destruct (error_status s) eqn:E; [discriminate|]. intros _. exists s, v. auto.
  - destruct (error_status s); discriminate.
Qed.

Section Totality.

Variable backend : list Request -> Request -> HttpOutcome.
Variable provider : list json -> json -> ProviderOutcome.

(** What a fetch function returns is its default or the body of an answer
    that is no failure; the session state is left alone. *)
Lemma fetch_tickers_total (w : World) :
  exists (v : json) (w' : World),
    fetch_tickers backend w = (Ok v, w') /\
    session_state w' = session_state w /\
    (v = JArr [] \/
     exists s, backend (backend_calls w) GET_tickers = HttpResponse s (Some v) /\
               error_status s = false).
Proof.
  rewrite fetch_tickers_run.
  destruct (request_error _) as [e|] eqn:E.
  - do 2 eexists. split; [reflexivity|]. split; [reflexivity | left; reflexivity].
  - apply request_error_none in E as (s & v & Ho & Hs & Hv).
    do 2 eexists. split; [reflexivity|]. split; [reflexivity|].
    right. exists s. rewrite Hv. auto.
Qed.

Lemma fetch_historical_data_total (ticker : json) (w : World) :
  exists (v : json) (w' : World),
    fetch_historical_data backend ticker w = (Ok v, w') /\
    session_state w' = session_state w /\
    (v = JNull \/
     exists s, backend (backend_calls w) (GET_historical_data ticker) = HttpResponse s (Some v) /\
               error_status s = false).
Proof.
  rewrite fetch_historical_data_run.
  destruct (request_error _) as [e|] eqn:E.
  - do 2 eexists. split; [reflexivity|]. split; [reflexivity | left; reflexivity].
  - apply request_error_none in E as (s & v & Ho & Hs & Hv).
    do 2 eexists. split; [reflexivity|]. split; [reflexivity|].
    right. exists s. rewrite Hv. auto.
Qed.

Lemma fetch_predictions_total (ticker : json) (w : World) :
  exists (v : json) (w' : World),
    fetch_predictions backend ticker w = (Ok v, w') /\
    session_state w' = session_state w /\
    (v = JNull \/
     exists s, backend (backend_calls w) (POST_predict ticker) = HttpResponse s (Some v) /\
               error_status s = false).
Proof.
  rewrite fetch_predictions_run.
  destruct (request_error _) as [e|] eqn:E.
  - do 2 eexists. split; [reflexivity|]. split; [reflexivity | left; reflexivity].
  - apply request_error_none in E as (s & v & Ho & Hs & Hv).
    do 2 eexists. split; [reflexivity|]. split; [reflexivity|].
    right. exists s. rewrite Hv. auto.
Qed.

Lemma add_new_ticker_total (ticker : json) (w : World) :
  exists (v : json) (w' : World),
    add_new_ticker backend provider ticker w = (Ok v, w') /\
    session_state w' = session_state w /\
    (v = JNull \/
     exists s, backend (backend_calls w) (POST_add ticker) = HttpResponse s (Some v) /\
               error_status s = false).
Proof.
  rewrite add_new_ticker_run.
  destruct (has_rows _).
  - destruct (request_error _) as [e|] eqn:E.
    + do 2 eexists. split; [reflexivity|]. split; [reflexivity | left; reflexivity].
    + apply request_error_none in E as (s & v & Ho & Hs & Hv).
      do 2 eexists. split; [reflexivity|]. split; [reflexivity|].
      right. exists s. rewrite Hv. auto.
  - do 2 eexists. split; [reflexivity|]. split; [reflexivity | left; reflexivity].
Qed.

Lemma init_session_total (w : World) :
  exists w' : World,
    init_session w = (Ok tt, w') /\ is_Some (session_state w' !! "selected_ticker").
Proof.
  unfold init_session. unfold_py. unfold store.
  repeat (case_bool_decide; cbn [negb session_state]);
    (eexists; split; [reflexivity|]); cbn [session_state];
    rewrite ?lookup_insert_ne by discriminate;
    first [assumption | rewrite lookup_insert_eq; eauto].
Qed.

(** The form that adds a ticker ends normally or with the rerun signal, when
    a truthy body of the add call is an object; it ends normally when the
    button was not clicked, and then leaves the session state alone. *)
Lemma add_ticker_form_total (u : UserInput) (w : World) :
  (forall s v, backend (backend_calls w) (POST_add (JStr (typed u))) = HttpResponse s (Some v) ->
               error_status s = false -> ok_added v = true) ->
  exists w' : World,
    (add_ticker_form backend provider u w = (Ok tt, w') /\ session_state w' = session_state w
     \/ clicked u = true /\ add_ticker_form backend provider u w = (Raise RerunException, w')).
Proof.
  intros Hshape. unfold add_ticker_form.
  destruct (clicked u && truthy (JStr (typed u))) eqn:Eclick.
  - apply andb_true_iff in Eclick as [Eclick _].
    set (w1 := log_page (st_button "Add Ticker")
                 (log_page (st_text_input "Enter New Ticker")
                    (log_page (st_header "Add Ticker") w))).
    destruct (add_new_ticker_total (JStr (typed u)) w1) as (v & w2 & Hadd & Hss & Hv).
    assert (truthy v = false \/ exists m, v = JObj m) as Hobj.
    { destruct Hv as [-> | (s & Hanswer & Hstatus)]; [left; reflexivity|].
      specialize (Hshape s v Hanswer Hstatus). unfold ok_added in Hshape.
      destruct (truthy v); [|left; reflexivity]. simpl in Hshape.
      destruct v; try discriminate. right. eauto. }
    unfold_py. simpl. fold w1. rewrite Hadd.
    destruct Hobj as [Hfalsy | [m ->]].
    + rewrite Hfalsy. eexists. left. split; [reflexivity | exact Hss].
    + destruct (truthy (JObj m)) eqn:Etruthy.
      * simpl py_get. cbv iota beta.
        destruct (fetch_tickers_total (log_page (st_success (default JNull (m !! "message"))) w2))
          as (v' & w3 & Hfetch & _ & _).
        rewrite Hfetch. eexists. right. split; [exact Eclick | reflexivity].
      * eexists. left. split; [reflexivity | exact Hss].
  - unfold_py. simpl. eexists. left. split; reflexivity.
Qed.

(** When the form ends normally, it has left the session state alone. *)
Lemma add_ticker_form_session (u : UserInput) (w w' : World) :
  add_ticker_form backend provider u w = (Ok tt, w') -> session_state w' = session_state w.
Proof.
  unfold add_ticker_form.
  destruct (clicked u && truthy (JStr (typed u))).
  - set (w1 := log_page (st_button "Add Ticker")
                 (log_page (st_text_input "Enter New Ticker")
                    (log_page (st_header "Add Ticker") w))).
    destruct (add_new_ticker_total (JStr (typed u)) w1) as (v & w2 & Hadd & Hss & _).
    unfold_py. simpl. fold w1. rewrite Hadd.
    destruct (truthy v).
    + destruct (py_get v "message") as [msg | e | what]; try discriminate.
      destruct (fetch_tickers_total (log_page (st_success msg) w2)) as (v' & w3 & Hfetch & _ & _).
      rewrite Hfetch. discriminate.
    + intros [= <-]. exact Hss.
  - unfold_py. simpl. intros [= <-]. reflexivity.
Qed.

End Totality.

(** ** The pure derivations on well-formed bodies *)

Lemma historical_frame_ok (hd : json) :
  ok_historical hd = true ->
  truthy hd = true ->
  exists d : json,
    py_get hd "dates" = Ok d /\
    (truthy d = true ->
     exists df : DataFrame,
       df_historical_of hd = Ok df /\ df <> [] /\
       forallb is_number (map Close df) = true /\
       forallb every_host_converts (map Date df) = true).
Proof.
  unfold ok_historical. intros Hshape Htruthy. rewrite Htruthy in Hshape. simpl in Hshape.
  destruct hd as [| | | | | |m]; try discriminate.
  exists (default JNull (m !! "dates")). split; [reflexivity|].
  intros Hd. cbv zeta in Hshape. rewrite Hd in Hshape. simpl in Hshape.
  destruct (m !! "dates") as [d|] eqn:Edates; [|discriminate]. simpl in *.
  destruct d as [| | | | |ds|]; try discriminate.
  destruct (m !! "close") as [[| | | | |cs|]|] eqn:Eclose; try discriminate.
  apply andb_true_iff in Hshape as [Hshape Hnumbers].
  apply andb_true_iff in Hshape as [Hparse Hlen]. apply Nat.eqb_eq in Hlen.
  unfold ok_dates in Hparse.
  destruct (parse_dates ds) as [ts| |] eqn:Ets; try discriminate.
  pose proof (parse_dates_length _ _ Ets) as Hts.
  assert (length ts = length cs) as Hlen' by lia.
  exists (zip_rows ts cs). split.
  { unfold df_historical_of. simpl. rewrite Edates, Eclose. simpl.
    unfold mbind, outcome_bind, obind. rewrite Ets.
    apply pd_DataFrame_same_length. exact Hlen'. }
  rewrite (zip_rows_Close _ _ Hlen'), (zip_rows_Date _ _ Hlen').
  split; [|split; assumption].
  destruct ds as [|d0 ds]; [discriminate|].
  destruct ts as [|t0 ts]; [discriminate|]. destruct cs as [|c0 cs]; [discriminate|].
  discriminate.
Qed.

(** The last date of a frame that every host converts is converted. *)
Lemma time_mktime_Date_max (mktime : Z -> Z) (df : DataFrame) (last : Timestamp) :
  Date_max df = Ok last ->
  forallb every_host_converts (map Date df) = true ->
  time_mktime mktime last = Ok (mktime (last / NS_PER_SECOND)).
Proof.
  intros Hmax Hdates.
  assert (df <> []) as Hdf by (intros ->; discriminate).
  destruct (Date_max_spec df Hdf) as (last' & Hmax' & _ & r & Hr & Hlast).
  rewrite Hmax in Hmax'. injection Hmax' as <-.
  unfold time_mktime.
  rewrite (proj1 (forallb_forall _ _) Hdates last); [reflexivity|].
  apply list_elem_of_In. rewrite <- Hlast. apply list_elem_of_fmap. exists r. auto.
Qed.

Lemma figure_of_ok (mktime : Z -> Z) (ticker : json) (df : DataFrame) (pd : json) :
  ok_predictions pd = true ->
  df <> [] ->
  forallb is_number (map Close df) = true ->
  forallb every_host_converts (map Date df) = true ->
  exists fig : Figure, figure_of mktime ticker df pd = Ok fig.
Proof.
  unfold ok_predictions. intros Hshape Hdf Hcloses Hdates.
  destruct (truthy pd) eqn:Htruthy; simpl in Hshape.
  - destruct pd as [| | | | | |m]; try discriminate. cbv zeta in Hshape.
    unfold figure_of, py_and. rewrite Htruthy. simpl py_get.
    unfold mbind, outcome_bind, obind.
    destruct (truthy (default JNull (m !! "predictions"))) eqn:Hp; simpl in Hshape.
    + destruct (m !! "predictions") as [p|] eqn:Ep; [|discriminate]. simpl in *.
      destruct p as [| | | | |ps|]; try discriminate.
      apply andb_true_iff in Hshape as [Hshape Hnumbers]. apply Nat.eqb_eq in Hshape.
      rewrite Ep.
      destruct (combined_frame_ok df ps Hdf Hshape Hcloses Hnumbers) as (last & Hmax & Hc).
      rewrite Hmax, Hc, (time_mktime_Date_max mktime df last Hmax Hdates). eauto.
    + eauto.
  - unfold figure_of, py_and. rewrite Htruthy.
    unfold mbind, outcome_bind, obind. rewrite Htruthy. eauto.
Qed.

Section RenderCycle.

Variable backend : list Request -> Request -> HttpOutcome.
Variable provider : list json -> json -> ProviderOutcome.

Lemma fetch_tickers_after_show (c : UiCall) (w : World) :
  fst (fetch_tickers backend (log_page c w)) = fst (fetch_tickers backend w).
Proof.
  rewrite !fetch_tickers_run. simpl.
  destruct (request_error _); reflexivity.
Qed.

(** The selection block, once the list is fetched. *)
Lemma ticker_selection_run (u : UserInput) (w w1 : World) (v : json) :
  fetch_tickers backend (log_page (st_header "Ticker Options") w) = (Ok v, w1) ->
  ticker_selection backend u w
  = if truthy v then
      match selectbox_value v (Some 0%nat) (picked u) with
      | Ok sel =>
          (Ok tt,
           store "selected_ticker" sel
             (log_page (st_selectbox "Select Ticker" v (Some 0%nat)) (store "all_tickers" v w1)))
      | Raise e =>
          (Raise e, log_page (st_selectbox "Select Ticker" v (Some 0%nat)) (store "all_tickers" v w1))
      | Unmodelled what =>
          (Unmodelled what,
           log_page (st_selectbox "Select Ticker" v (Some 0%nat)) (store "all_tickers" v w1))
      end
    else
      (Ok tt,
       store "selected_ticker" JNull
         (log_page (st_warning "No tickers available. Please add a ticker.")
            (store "all_tickers" v w1))).
Proof.
  intros Hfetch. unfold ticker_selection.
  unfold_py. rewrite Hfetch. unfold store, log_page.
  repeat (cbn [session_state page backend_calls provider_calls]; rewrite lookup_insert_eq).
  destruct (truthy v) eqn:Htruthy; cbn [negb].
  - repeat (cbn [session_state page backend_calls provider_calls]; rewrite lookup_insert_eq).
    rewrite ?Htruthy.
    destruct (selectbox_value v (Some 0%nat) (picked u)); reflexivity.
  - reflexivity.
Qed.

Lemma selectbox_value_member (l : list json) (picked : nat) :
  l <> [] -> exists sel, selectbox_value (JArr l) (Some 0%nat) picked = Ok sel /\ sel ∈ l.
Proof.
  intros Hl. unfold selectbox_value.
  destruct (l !! picked) as [v|] eqn:E.
  - exists v. split; [reflexivity|]. eapply list_elem_of_lookup_2. exact E.
  - destruct l as [|x l]; [contradiction|]. exists x. split; [reflexivity|].
    apply elem_of_cons. left. reflexivity.
Qed.

End RenderCycle.

Section Cycle.

Variable backend : list Request -> Request -> HttpOutcome.
Variable provider : list json -> json -> ProviderOutcome.
Variable mktime : Z -> Z.

Lemma ticker_selection_selects (u : UserInput) (w : World) (l : list json) :
  fst (fetch_tickers backend w) = Ok (JArr l) ->
  JNull ∉ l ->
  exists w1 : World,
    ticker_selection backend u w = (Ok tt, w1) /\ selection_ok l w1.
Proof.
  intros Hfresh Hnull.
  destruct (fetch_tickers_total backend (log_page (st_header "Ticker Options") w))
    as (v & w1 & Hfetch & _ & _).
  assert (v = JArr l) as ->.
  { rewrite <- fetch_tickers_after_show with (c := st_header "Ticker Options") in Hfresh.
    rewrite Hfetch in Hfresh. simpl in Hfresh. congruence. }
  rewrite (ticker_selection_run backend u w w1 _ Hfetch).
  destruct l as [|x l].
  - simpl. eexists. split; [reflexivity|]. split.
    + simpl. rewrite lookup_insert_ne by discriminate. apply lookup_insert_eq.
    + exists JNull. split; [apply lookup_insert_eq|]. split; [tauto | left; reflexivity].
  - destruct (selectbox_value_member (x :: l) (picked u)) as (sel & Hsel & Hin); [discriminate|].
    cbn [truthy]. rewrite Hsel. eexists. split; [reflexivity|]. split.
    + simpl. rewrite lookup_insert_ne by discriminate. apply lookup_insert_eq.
    + exists sel. split; [apply lookup_insert_eq|]. split; [|right; exact Hin].
      split; [|discriminate]. intros ->. contradiction.
Qed.

(** C9. After the selection block of the sidebar, and after the whole
    sidebar when it ends without a rerun, the session holds the freshly
    fetched list, and the selected ticker is [None] exactly when that list
    is empty and is otherwise one of its entries; so a ticker that was
    selected before and is not in the fresh list is not the selection. *)
Theorem selection_follows_fresh_list (u : UserInput) (w : World) (l : list json) :
  fst (fetch_tickers backend w) = Ok (JArr l) ->
  JNull ∉ l ->
  (exists w1 : World,
     ticker_selection backend u w = (Ok tt, w1) /\
     selection_ok l w1 /\
     forall old : json,
       session_state w !! "selected_ticker" = Some old -> old <> JNull -> old ∉ l ->
       session_state w1 !! "selected_ticker" <> Some old) /\
  (forall w' : World,
     sidebar backend provider u w = (Ok tt, w') -> selection_ok l w').
Proof.
  intros Hfresh Hnull.
  destruct (ticker_selection_selects u w l Hfresh Hnull) as (w1 & Hrun & Hok).
  split.
  - exists w1. split; [exact Hrun|]. split; [exact Hok|].
    intros old _ Hold Hgone Hkept.
    destruct Hok as (_ & sel & Hsel & _ & [-> | Hin]); congruence.
  - intros w' Hside. unfold sidebar in Hside.
    rewrite (bind_ok _ _ _ _ _ Hrun) in Hside.
    apply add_ticker_form_session in Hside.
    unfold selection_ok in *. rewrite Hside. exact Hok.
Qed.

(** ** The render cycle on well-formed bodies *)

Hypothesis backend_well_formed : well_formed backend.

Lemma ticker_selection_total (u : UserInput) (w : World) :
  exists w' : World,
    ticker_selection backend u w = (Ok tt, w') /\
    is_Some (session_state w' !! "selected_ticker").
Proof.
  destruct (fetch_tickers_total backend (log_page (st_header "Ticker Options") w))
    as (v & w1 & Hfetch & _ & Hv).
  rewrite (ticker_selection_run backend u w w1 _ Hfetch).
  destruct (truthy v) eqn:Htruthy.
  - assert (exists l, v = JArr l /\ l <> []) as (l & -> & Hl).
    { destruct Hv as [-> | (s & Hanswer & Hstatus)]; [discriminate|].
      pose proof (backend_well_formed _ _ _ _ Hanswer Hstatus) as Hshape.
      simpl in Hshape. unfold ok_tickers in Hshape. rewrite Htruthy in Hshape.
      destruct v as [| | | | |l|]; try discriminate. exists l. split; [reflexivity|].
      intros ->. discriminate. }
    destruct (selectbox_value_member l (picked u) Hl) as (sel & -> & _).
    eexists. split; [reflexivity|]. simpl. rewrite lookup_insert_eq. eauto.
  - eexists. split; [reflexivity|]. simpl. rewrite lookup_insert_eq. eauto.
Qed.

Lemma sidebar_total (u : UserInput) (w : World) :
  exists w' : World,
    (sidebar backend provider u w = (Ok tt, w') /\
     is_Some (session_state w' !! "selected_ticker"))
    \/ (clicked u = true /\ sidebar backend provider u w = (Raise RerunException, w')).
Proof.
  destruct (ticker_selection_total u w) as (w1 & Hsel & Hkey).
  unfold sidebar. rewrite (bind_ok _ _ _ _ _ Hsel).
  destruct (add_ticker_form_total backend provider u w1) as (w' & [[Hform Hss] | [Hclick Hform]]).
  - intros s v Hanswer Hstatus. exact (backend_well_formed _ _ _ _ Hanswer Hstatus).
  - exists w'. left. split; [exact Hform|]. rewrite Hss. exact Hkey.
  - exists w'. right. split; [exact Hclick | exact Hform].
Qed.

Lemma main_area_total (w : World) :
  is_Some (session_state w !! "selected_ticker") ->
  exists w' : World, main_area backend mktime w = (Ok tt, w').
Proof.
  intros [sel Hsel]. unfold main_area.
  unfold mbind at 1, M_bind at 1, bind at 1, session_get at 1. rewrite Hsel.
  destruct (truthy sel) eqn:Hticker; [|eexists; reflexivity].
  destruct (fetch_historical_data_total backend sel w) as (hd & w1 & Hfetch & _ & Hhd).
  rewrite (bind_ok _ _ _ _ _ Hfetch).
  assert (ok_historical hd = true) as Hshape.
  { destruct Hhd as [-> | (s & Hanswer & Hstatus)]; [reflexivity|].
    exact (backend_well_formed _ _ _ _ Hanswer Hstatus). }
  unfold py_and.
  destruct (truthy hd) eqn:Hhdt.
  - destruct (historical_frame_ok hd Hshape Hhdt) as (d & Hget & Hframe).
    rewrite Hget, bind_lift_ok.
    destruct (truthy d) eqn:Hd; [|eexists; reflexivity].
    destruct (Hframe eq_refl) as (df & Hdf & Hrows & Hcloses & Hdates).
    rewrite Hdf, bind_lift_ok.
    destruct (fetch_predictions_total backend sel w1) as (pd & w2 & Hpred & _ & Hpd).
    rewrite (bind_ok _ _ _ _ _ Hpred).
    assert (ok_predictions pd = true) as Hpshape.
    { destruct Hpd as [-> | (s & Hanswer & Hstatus)]; [reflexivity|].
      exact (backend_well_formed _ _ _ _ Hanswer Hstatus). }
    destruct (figure_of_ok mktime sel df pd Hpshape Hrows Hcloses Hdates) as (fig & Hfig).
    rewrite Hfig, bind_lift_ok.
    eexists. reflexivity.
  - rewrite bind_lift_ok, Hhdt.
    eexists. reflexivity.
Qed.

Lemma script_total (u : UserInput) (w : World) :
  exists w' : World,
    script backend provider mktime u w = (Ok tt, w')
    \/ (clicked u = true /\ script backend provider mktime u w = (Raise RerunException, w')).
Proof.
  destruct (init_session_total (log_page (st_title "Stock Price Prediction App") w))
    as (w1 & Hinit & _).
  assert (script backend provider mktime u w
          = (sidebar backend provider u ≫= fun _ => main_area backend mktime) w1) as Hscript.
  { unfold script. unfold mbind at 1, M_bind at 1, bind at 1, show at 1.
    rewrite (bind_ok _ _ _ _ _ Hinit). reflexivity. }
  rewrite Hscript.
  destruct (sidebar_total u w1) as (w2 & [[Hside Hkey] | [Hclick Hside]]).
  - rewrite (bind_ok _ _ _ _ _ Hside).
    destruct (main_area_total w2 Hkey) as (w3 & Hmain).
    exists w3. left. exact Hmain.
  - rewrite (bind_raise _ _ _ _ _ Hside). exists w2. right. split; [exact Hclick | reflexivity].
Qed.

Lemma render_total (u : UserInput) (w : World) :
  exists w' : World, render backend provider mktime u w = (Ok tt, w').
Proof.
  unfold render.
  destruct (script_total u w) as (w1 & [Hrun | [_ Hrun]]); rewrite Hrun.
  - exists w1. reflexivity.
  - destruct (script_total (mkUserInput (picked u) (typed u) false) w1)
      as (w2 & [Hagain | [Hclick _]]); [|discriminate].
    exists w2. exact Hagain.
Qed.

End Cycle.


(** * Concrete runs *)


(** C1, as stated, fails: next to predictions that are floats, the close
    [2 ^ 53 + 1] of the history is [2 ^ 53] in the combined frame. *)
Lemma large_close_is_rounded_in_combined_frame :
  exists (c : DataFrame) (x : spec_float),
    df_combined_of large_close_frame (JArr seven_float_predictions) = Ok c /\
    map Close large_close_frame = [JInt 9007199254740993] /\
    map Close (take 1 c) = [JFloat x] /\
    int_of_float x = Some 9007199254740992.
Proof. do 2 eexists. vm_compute. repeat split; reflexivity. Qed.


(** A status outside 2xx that is no error status is no failure: the body of
    a redirection is returned, and nothing is reported. *)
Example redirection_is_no_failure :
  fetch_tickers redirecting_backend fresh_world
  = (Ok (JArr [JStr "AAPL"]), log_backend GET_tickers fresh_world).
Proof. reflexivity. Qed.

(** The dates every host converts: from 1970-01-02 to 2038-01-18. *)
Example dates_every_host_converts :
  (every_host_converts <$> parse_date "1970-01-01") = Some false /\
  (every_host_converts <$> parse_date "1970-01-02") = Some true /\
  (every_host_converts <$> parse_date "2038-01-18") = Some true /\
  (every_host_converts <$> parse_date "2038-01-19") = Some false.
Proof. vm_compute. repeat split; reflexivity. Qed.

(** A provider that raises makes every symbol invalid. *)
Example provider_down_is_invalid :
  is_valid_ticker failing_provider (JStr "AAPL") fresh_world
  = (Ok false, log_provider (JStr "AAPL") fresh_world).
Proof. reflexivity. Qed.

(** C6, as stated, fails: for a body with an empty [dates] list,
    [fetch_historical_data] returns that body, not [None]. *)
Lemma empty_dates_body_is_returned :
  fst (fetch_historical_data empty_history_backend (JStr "AAPL") fresh_world)
  = Ok (obj [("dates", JArr []); ("close", JArr [])]).
Proof. vm_compute. reflexivity. Qed.

(** The regular backend sends well-formed bodies only. *)
Lemma regular_backend_well_formed : well_formed regular_backend.
Proof.
  intros h r s v Hanswer _.
  destruct r; simpl in Hanswer; injection Hanswer as <- <-; vm_compute; reflexivity.
Qed.

(** The combined frame of the scenario, with predictions that are floats:
    two days of history, seven predictions, in a column of floats. *)
Lemma combined_series_witness :
  scenario_frame <> [] /\
  length seven_float_predictions = 7%nat /\
  forallb is_number (map Close scenario_frame) = true /\
  forallb is_number seven_float_predictions = true /\
  numbers_dtype (map Close scenario_frame ++ seven_float_predictions) = float64 /\
  exists (last : Timestamp) (c : DataFrame),
    Date_max scenario_frame = Ok last /\
    df_combined_of scenario_frame (JArr seven_float_predictions) = Ok c /\
    length c = 9%nat /\
    Forall2 same_number (map Close scenario_frame) (map Close (take 2 c)).
Proof.
  assert (scenario_frame <> []) as H1 by discriminate.
  assert (length seven_float_predictions = 7%nat) as H2 by reflexivity.
  assert (forallb is_number (map Close scenario_frame) = true) as H3 by reflexivity.
  assert (forallb is_number seven_float_predictions = true) as H4 by reflexivity.
  split; [exact H1|]. split; [exact H2|]. split; [exact H3|]. split; [exact H4|].
  split; [reflexivity|].
  destruct (combined_series_appends_seven_days scenario_frame seven_float_predictions
              H1 H2 H3 H4)
    as (last & c & Hmax & _ & _ & Hc & Hlen & _ & _ & _ & _ & _ & _ & Hsame & _).
  exists last, c. split; [exact Hmax|]. split; [exact Hc|]. split; [exact Hlen|].
  apply Hsame. reflexivity.
Defined.

(** A symbol the provider does not know is not sent to the backend. *)
Lemma add_new_ticker_invalid_witness :
  fst (is_valid_ticker no_symbol_provider (JStr "ZZZZINVALID") fresh_world) = Ok false /\
  backend_calls
    (snd (add_new_ticker regular_backend no_symbol_provider (JStr "ZZZZINVALID") fresh_world))
  = [].
Proof.
  assert (fst (is_valid_ticker no_symbol_provider (JStr "ZZZZINVALID") fresh_world) = Ok false)
    as H by reflexivity.
  split; [exact H|].
  exact (proj2 (add_new_ticker_invalid regular_backend no_symbol_provider "ZZZZINVALID"
                  fresh_world H)).
Defined.



(** A selected ticker whose history is empty: the warning, and nothing else. *)
Lemma empty_dates_witness :
  session_state selected_world !! "selected_ticker" = Some (JStr "AAPL") /\
  truthy (JStr "AAPL") = true /\
  error_status 200 = false /\
  main_area empty_history_backend utc selected_world
  = (Ok tt,
     log_page (st_warning
                 "Could not retrieve data, please make sure ticker has valid historical data")
       (log_backend (GET_historical_data (JStr "AAPL")) selected_world)).
Proof.
  assert (session_state selected_world !! "selected_ticker" = Some (JStr "AAPL")) as H1
    by (vm_compute; reflexivity).
  split; [exact H1|]. split; [reflexivity|]. split; [reflexivity|].
  refine (proj2 (empty_dates_is_no_data_in_main_area empty_history_backend utc (JStr "AAPL")
                   selected_world 200
                   (list_to_map [("dates", JArr []); ("close", JArr [])])
                   H1 _ _ _ _)).
  - reflexivity.
  - reflexivity.
  - reflexivity.
  - vm_compute. reflexivity.
Defined.


(** The second of two tickers is picked. *)
Lemma selection_witness :
  fst (fetch_tickers regular_backend fresh_world) = Ok (JArr [JStr "AAPL"; JStr "MSFT"]) /\
  exists w1 : World,
    ticker_selection regular_backend (mkUserInput 1 "" false) fresh_world = (Ok tt, w1) /\
    selection_ok [JStr "AAPL"; JStr "MSFT"] w1.
Proof.
  assert (fst (fetch_tickers regular_backend fresh_world) = Ok (JArr [JStr "AAPL"; JStr "MSFT"]))
    as H1 by reflexivity.
  assert (JNull ∉ [JStr "AAPL"; JStr "MSFT"]) as H2.
  { intros H. apply elem_of_cons in H as [H | H]; [discriminate|].
    apply elem_of_cons in H as [H | H]; [discriminate|]. inversion H. }
  split; [exact H1|].
  destruct (selection_follows_fresh_list regular_backend any_symbol_provider
              (mkUserInput 1 "" false) fresh_world _ H1 H2)
    as ((w1 & Hrun & Hok & _) & _).
  exists w1. split; [exact Hrun | exact Hok].
Defined.

(** The backend accepts the ticker with an empty object: no success path. *)
Lemma add_form_witness :
  truthy (obj []) = false /\
  add_ticker_form silent_add_backend any_symbol_provider (mkUserInput 0 "TSLA" true) fresh_world
  = (Ok tt,
     mkWorld ∅
       [st_header "Add Ticker"; st_text_input "Enter New Ticker"; st_button "Add Ticker"]
       [POST_add (JStr "TSLA")]
       [JStr "TSLA"]).
Proof.
  assert (truthy (obj []) = false) as H by reflexivity.
  split; [exact H|].
  refine (add_form_skips_success_on_falsy_body silent_add_backend any_symbol_provider
            (mkUserInput 0 "TSLA" true) fresh_world 200 (obj []) _ _ _ _ _ H).
  - reflexivity.
  - discriminate.
  - reflexivity.
  - reflexivity.
  - lia.
Defined.

(** * More on the client functions *)




(** * More on the script *)

(** ** The session state at the start of a run *)

(** The session state after the initialisation, entry by entry. *)
Lemma init_session_state (w : World) :
  exists w' : World,
    init_session w = (Ok tt, w') /\
    page w' = page w /\ backend_calls w' = backend_calls w /\
    provider_calls w' = provider_calls w /\
    session_state w' !! "selected_ticker"
    = Some (default JNull (session_state w !! "selected_ticker")) /\
    session_state w' !! "all_tickers"
    = Some (default (JArr []) (session_state w !! "all_tickers")) /\
    session_state w' !! "ticker_added"
    = Some (default (JBool false) (session_state w !! "ticker_added")) /\
    session_state w' !! "initial_load"
    = match session_state w !! "ticker_added" with
      | Some _ => session_state w !! "initial_load"
      | None => Some (JBool true)
      end /\
    forall k : string, k ∉ script_keys -> session_state w' !! k = session_state w !! k.
Proof.
  unfold init_session. unfold_py. unfold store.
  repeat (case_bool_decide; cbn [negb session_state]);
    (eexists; split; [reflexivity|]); cbn [session_state page backend_calls provider_calls];
    repeat match goal with
      | H : is_Some _ |- _ => destruct H as [? H]
      | H : ¬ is_Some _ |- _ => apply eq_None_not_Some in H
      end;
    repeat (rewrite lookup_insert_ne in * by discriminate);
    (split; [reflexivity|]); (split; [reflexivity|]); (split; [reflexivity|]);
    (split; [session_lookup|]); (split; [session_lookup|]); (split; [session_lookup|]);
    (split; [session_lookup|]);
    intros k Hk; unfold script_keys in Hk;
    rewrite ?lookup_insert_ne by (intros <-; apply Hk; set_solver); reflexivity.
Qed.

(** X4. The initialisation never fails and touches nothing but the session
    state.  It gives [selected_ticker], [all_tickers] and [ticker_added]
    their defaults when they are missing and keeps every entry that exists,
    with one exception: [initial_load] is set to [True] exactly when
    [ticker_added] was missing, whether it existed or not. *)
Theorem init_session_defaults (w : World) :
  exists w' : World,
    init_session w = (Ok tt, w') /\
    page w' = page w /\ backend_calls w' = backend_calls w /\
    provider_calls w' = provider_calls w /\
    session_state w' !! "selected_ticker"
    = Some (default JNull (session_state w !! "selected_ticker")) /\
    session_state w' !! "all_tickers"
    = Some (default (JArr []) (session_state w !! "all_tickers")) /\
    session_state w' !! "ticker_added"
    = Some (default (JBool false) (session_state w !! "ticker_added")) /\
    session_state w' !! "initial_load"
    = match session_state w !! "ticker_added" with
      | Some _ => session_state w !! "initial_load"
      | None => Some (JBool true)
      end /\
    forall k : string, k ∉ script_keys -> session_state w' !! k = session_state w !! k.
Proof. exact (init_session_state w). Qed.

(** X5. Initialising twice is initialising once: a second initialisation
    changes nothing. *)
Theorem init_session_idempotent (w w' : World) :
  init_session w = (Ok tt, w') -> init_session w' = (Ok tt, w').
Proof.
  intros Hinit.
  destruct (init_session_state w) as (w1 & Hrun & _ & _ & _ & H1 & H2 & H3 & _).
  rewrite Hrun in Hinit. injection Hinit as <-.
  unfold init_session. unfold_py.
  repeat (rewrite bool_decide_eq_true_2 by (rewrite ?H1, ?H2, ?H3; eauto); cbn).
  reflexivity.
Qed.

(** ** The form that adds a ticker *)

(** The form when it has nothing to do. *)
Lemma add_form_idle_run
    (backend : list Request -> Request -> HttpOutcome)
    (provider : list json -> json -> ProviderOutcome) (u : UserInput) (w : World) :
  clicked u = false \/ typed u = "" ->
  add_ticker_form backend provider u w
  = (Ok tt,
     mkWorld (session_state w)
       (page w ++ [st_header "Add Ticker"; st_text_input "Enter New Ticker"; st_button "Add Ticker"])
       (backend_calls w) (provider_calls w)).
Proof.
  intros Hidle. unfold add_ticker_form.
  assert (clicked u && truthy (JStr (typed u)) = false) as ->.
  { destruct Hidle as [-> | ->]; [reflexivity | apply andb_false_r]. }
  unfold_py. unfold log_page. simpl. rewrite <- !app_assoc. reflexivity.
Qed.

(** X6. Without a click on the button, or with nothing typed, the form only
    shows its three widgets: no validation, no call to the backend, no
    change of the session state. *)
Theorem add_form_without_click
    (backend : list Request -> Request -> HttpOutcome)
    (provider : list json -> json -> ProviderOutcome) (u : UserInput) (w : World) :
  clicked u = false \/ typed u = "" ->
  add_ticker_form backend provider u w
  = (Ok tt,
     mkWorld (session_state w)
       (page w ++ [st_header "Add Ticker"; st_text_input "Enter New Ticker"; st_button "Add Ticker"])
       (backend_calls w) (provider_calls w)).
Proof. apply add_form_idle_run. Qed.


(** X8. A valid ticker is posted and the backend answers, without an error,
    with a body that is true in Python's sense but no object (a list, a
    string, a number): reading its [message] raises [AttributeError] out of
    the form, after the call, with no success message, no second fetch and
    no rerun. *)
Theorem add_form_body_without_get
    (backend : list Request -> Request -> HttpOutcome)
    (provider : list json -> json -> ProviderOutcome)
    (u : UserInput) (w : World) (s : Z) (v : json) :
  clicked u = true ->
  typed u <> "" ->
  has_rows (provider (provider_calls w) (JStr (typed u))) = true ->
  backend (backend_calls w) (POST_add (JStr (typed u))) = HttpResponse s (Some v) ->
  error_status s = false ->
  truthy v = true ->
  (forall m, v <> JObj m) ->
  add_ticker_form backend provider u w
  = (Raise (AttributeError "object has no attribute 'get'"),
     mkWorld (session_state w)
       (page w ++ [st_header "Add Ticker"; st_text_input "Enter New Ticker"; st_button "Add Ticker"])
       (backend_calls w ++ [POST_add (JStr (typed u))])
       (provider_calls w ++ [JStr (typed u)])).
Proof.
  intros Hclick Htyped Hvalid Hadd Hs Hbody Hobj.
  unfold add_ticker_form. rewrite Hclick.
  assert (truthy (JStr (typed u)) = true) as ->.
  { simpl. destruct (String.eqb_spec (typed u) ""); [contradiction | reflexivity]. }
  unfold_py. cbn [andb]. rewrite add_new_ticker_run.
  cbn [provider_calls backend_calls log_page]. rewrite Hvalid, Hadd.
  unfold request_error. rewrite Hs. cbn [decoded]. rewrite Hbody.
  assert (py_get v "message" = Raise (AttributeError "object has no attribute 'get'")) as ->.
  { destruct v; try reflexivity. exfalso. eapply Hobj. reflexivity. }
  unfold log_page, log_backend, log_provider. simpl. rewrite <- !app_assoc. reflexivity.
Qed.

(** ** The main area *)

Lemma zip_rows_nil_iff (ts : list Timestamp) (cs : list json) :
  length ts = length cs -> ts <> [] -> zip_rows ts cs <> [].
Proof.
  destruct ts as [|t ts], cs as [|c cs]; simpl; intros Hlen Hts; try congruence; discriminate.
Qed.

Section MainArea.

Variable backend : list Request -> Request -> HttpOutcome.
Variable mktime : Z -> Z.
Variable w : World.
Variable ticker : json.

Hypothesis selected : session_state w !! "selected_ticker" = Some ticker.
Hypothesis selected_truthy : truthy ticker = true.

(** The main area, from the answer to the request for the history on. *)
Lemma main_area_from_history (hd : json) (w1 : World) :
  fetch_historical_data backend ticker w = (Ok hd, w1) ->
  main_area backend mktime w
  = (has_dates ← lift (py_and hd (py_get hd "dates"));
     if truthy has_dates then
       df_historical ← lift (df_historical_of hd);
       predictions_data ← fetch_predictions backend ticker;
       fig ← lift (figure_of mktime ticker df_historical predictions_data);
       show (st_plotly_chart fig)
     else
       show (st_warning
         "Could not retrieve data, please make sure ticker has valid historical data")) w1.
Proof.
  intros Hfetch. unfold main_area.
  unfold mbind at 1, M_bind at 1, bind at 1, session_get at 1.
  rewrite selected, selected_truthy.
  rewrite (bind_ok _ _ _ _ _ Hfetch). reflexivity.
Qed.

(** The main area when the frame of the history cannot be built. *)
Lemma main_area_frame_raises (s : Z) (m : gmap string json) (e : exn) :
  backend (backend_calls w) (GET_historical_data ticker) = HttpResponse s (Some (JObj m)) ->
  error_status s = false ->
  truthy (default JNull (m !! "dates")) = true ->
  df_historical_of (JObj m) = Raise e ->
  main_area backend mktime w = (Raise e, log_backend (GET_historical_data ticker) w).
Proof.
  intros Hanswer Hstatus Hdates Hframe.
  assert (fetch_historical_data backend ticker w
          = (Ok (JObj m), log_backend (GET_historical_data ticker) w)) as Hfetch.
  { rewrite fetch_historical_data_run, Hanswer. simpl. rewrite Hstatus. reflexivity. }
  rewrite (main_area_from_history _ _ Hfetch).
  assert (truthy (JObj m) = true) as Hobj.
  { destruct (m !! "dates") as [d|] eqn:E; [|discriminate].
    eapply truthy_obj_lookup. exact E. }
  unfold py_and. rewrite Hobj. cbn [py_get]. rewrite bind_lift_ok, Hdates.
  unfold mbind at 1, M_bind at 1, bind at 1, lift at 1. rewrite Hframe. reflexivity.
Qed.

(** The main area when the frame of the history is built. *)
Lemma main_area_with_frame (s : Z) (m : gmap string json) (df : DataFrame) (pd : json) (w2 : World) :
  backend (backend_calls w) (GET_historical_data ticker) = HttpResponse s (Some (JObj m)) ->
  error_status s = false ->
  truthy (default JNull (m !! "dates")) = true ->
  df_historical_of (JObj m) = Ok df ->
  fetch_predictions backend ticker (log_backend (GET_historical_data ticker) w) = (Ok pd, w2) ->
  main_area backend mktime w
  = match figure_of mktime ticker df pd with
    | Ok fig => (Ok tt, log_page (st_plotly_chart fig) w2)
    | Raise e => (Raise e, w2)
    | Unmodelled what => (Unmodelled what, w2)
    end.
Proof.
  intros Hanswer Hstatus Hdates Hframe Hpred.
  assert (fetch_historical_data backend ticker w
          = (Ok (JObj m), log_backend (GET_historical_data ticker) w)) as Hfetch.
  { rewrite fetch_historical_data_run, Hanswer. simpl. rewrite Hstatus. reflexivity. }
  rewrite (main_area_from_history _ _ Hfetch).
  assert (truthy (JObj m) = true) as Hobj.
  { destruct (m !! "dates") as [d|] eqn:E; [|discriminate].
    eapply truthy_obj_lookup. exact E. }
  unfold py_and. rewrite Hobj. cbn [py_get]. rewrite bind_lift_ok, Hdates.
  rewrite Hframe, bind_lift_ok. rewrite (bind_ok _ _ _ _ _ Hpred).
  unfold mbind, M_bind, bind, lift, show.
  destruct (figure_of mktime ticker df pd); reflexivity.
Qed.

(** X9. The request for the history fails: the main area shows the error
    of the fetch and the warning that no data could be retrieved; it asks
    for no prediction and draws no chart. *)
Theorem main_area_history_unavailable (e : exn) :
  request_error (backend (backend_calls w) (GET_historical_data ticker)) = Some e ->
  main_area backend mktime w
  = (Ok tt,
     mkWorld (session_state w)
       (page w ++ [st_error [Lit "Error fetching historical data for "; Val ticker;
                             Lit ": "; Exc e];
                   st_warning
                     "Could not retrieve data, please make sure ticker has valid historical data"])
       (backend_calls w ++ [GET_historical_data ticker])
       (provider_calls w)).
Proof.
  intros Hfail.
  assert (fetch_historical_data backend ticker w
          = (Ok JNull,
             log_page (st_error [Lit "Error fetching historical data for "; Val ticker;
                                 Lit ": "; Exc e])
               (log_backend (GET_historical_data ticker) w))) as Hfetch.
  { rewrite fetch_historical_data_run, Hfail. reflexivity. }
  rewrite (main_area_from_history _ _ Hfetch).
  unfold_py. unfold log_page, log_backend. simpl. rewrite <- !app_assoc. reflexivity.
Qed.

(** X10. The backend answers the request for the history, without an
    error, with a body that is true in Python's sense but no object: the
    guard of the main area raises [AttributeError], before any prediction is
    asked for. *)
Theorem main_area_history_without_get (s : Z) (hd : json) :
  backend (backend_calls w) (GET_historical_data ticker) = HttpResponse s (Some hd) ->
  error_status s = false ->
  truthy hd = true ->
  (forall m, hd <> JObj m) ->
  main_area backend mktime w
  = (Raise (AttributeError "object has no attribute 'get'"),
     log_backend (GET_historical_data ticker) w).
Proof.
  intros Hanswer Hstatus Htruthy Hobj.
  assert (fetch_historical_data backend ticker w
          = (Ok hd, log_backend (GET_historical_data ticker) w)) as Hfetch.
  { rewrite fetch_historical_data_run, Hanswer. simpl. rewrite Hstatus. reflexivity. }
  rewrite (main_area_from_history _ _ Hfetch).
  unfold py_and. rewrite Htruthy.
  assert (py_get hd "dates" = Raise (AttributeError "object has no attribute 'get'")) as ->.
  { destruct hd; try reflexivity. exfalso. eapply Hobj. reflexivity. }
  reflexivity.
Qed.

(** X11. The history has dates that parse and a [close] list of another
    length: building the frame raises [ValueError] out of the main area,
    before any prediction is asked for. *)
Theorem main_area_close_of_other_length
    (s : Z) (m : gmap string json) (ds cs : list json) (ts : list Timestamp) :
  backend (backend_calls w) (GET_historical_data ticker) = HttpResponse s (Some (JObj m)) ->
  error_status s = false ->
  m !! "dates" = Some (JArr ds) ->
  ds <> [] ->
  parse_dates ds = Ok ts ->
  m !! "close" = Some (JArr cs) ->
  length cs <> length ds ->
  main_area backend mktime w
  = (Raise (ValueError "All arrays must be of the same length"),
     log_backend (GET_historical_data ticker) w).
Proof.
  intros Hanswer Hstatus Hdates Hds Hparse Hclose Hlen.
  apply (main_area_frame_raises s m _ Hanswer Hstatus).
  - rewrite Hdates. destruct ds; [contradiction | reflexivity].
  - unfold df_historical_of. simpl. rewrite Hdates, Hclose. simpl.
    unfold mbind, outcome_bind, obind. rewrite Hparse. unfold pd_DataFrame.
    rewrite (parse_dates_length _ _ Hparse).
    destruct (Nat.eqb_spec (length ds) (length cs)); [congruence | reflexivity].
Qed.

(** X12. The history has dates that parse and no [close] entry: reading it
    raises [KeyError] out of the main area, before any prediction is asked
    for. *)
Theorem main_area_close_missing
    (s : Z) (m : gmap string json) (ds : list json) (ts : list Timestamp) :
  backend (backend_calls w) (GET_historical_data ticker) = HttpResponse s (Some (JObj m)) ->
  error_status s = false ->
  m !! "dates" = Some (JArr ds) ->
  ds <> [] ->
  parse_dates ds = Ok ts ->
  m !! "close" = None ->
  main_area backend mktime w = (Raise (KeyError "close"), log_backend (GET_historical_data ticker) w).
Proof.
  intros Hanswer Hstatus Hdates Hds Hparse Hclose.
  apply (main_area_frame_raises s m _ Hanswer Hstatus).
  - rewrite Hdates. destruct ds; [contradiction | reflexivity].
  - unfold df_historical_of. simpl. rewrite Hdates, Hclose. simpl.
    unfold mbind, outcome_bind, obind. rewrite Hparse. reflexivity.
Qed.

(** *** A history that makes a frame *)

Variable s : Z.
Variable m : gmap string json.
Variables ds cs : list json.
Variable ts : list Timestamp.
Variable pd : json.
Variable w2 : World.

Hypothesis answer :
  backend (backend_calls w) (GET_historical_data ticker) = HttpResponse s (Some (JObj m)).
Hypothesis no_error : error_status s = false.
Hypothesis dates : m !! "dates" = Some (JArr ds).
Hypothesis some_date : ds <> [].
Hypothesis dates_parse : parse_dates ds = Ok ts.
Hypothesis close : m !! "close" = Some (JArr cs).
Hypothesis same_length : length ds = length cs.
Hypothesis predictions_fetched :
  fetch_predictions backend ticker (log_backend (GET_historical_data ticker) w) = (Ok pd, w2).

Lemma history_frame : df_historical_of (JObj m) = Ok (zip_rows ts cs) /\ zip_rows ts cs <> [].
Proof.
  pose proof (parse_dates_length _ _ dates_parse) as Hts.
  split.
  - unfold df_historical_of. simpl. rewrite dates, close. simpl.
    unfold mbind, outcome_bind, obind. rewrite dates_parse.
    apply pd_DataFrame_same_length. lia.
  - apply zip_rows_nil_iff; [lia|]. intros ->. destruct ds; [contradiction | discriminate].
Qed.

Lemma history_has_dates : truthy (default JNull (m !! "dates")) = true.
Proof. rewrite dates. destruct ds; [contradiction | reflexivity]. Qed.


(** X15. With exactly 7 predictions, closes and predictions that are
    numbers and dates that every host converts, the main area draws one
    chart: the historical rows followed by the predictions, dated from the
    day after the last historical date on, all in the type of the combined
    column; titled "Stock Data and Prediction for" the ticker; with the
    dashed line at 1000 times what [time.mktime] makes of the last
    historical date, read as a time of the host's time zone. *)
Theorem main_area_with_predictions (mp : gmap string json) (ps : list json) :
  pd = JObj mp ->
  mp !! "predictions" = Some (JArr ps) ->
  length ps = 7%nat ->
  forallb is_number cs = true ->
  forallb is_number ps = true ->
  forallb every_host_converts ts = true ->
  exists last : Timestamp,
    Date_max (zip_rows ts cs) = Ok last /\
    main_area backend mktime w
    = (Ok tt,
       log_page (st_plotly_chart
                   (mkFigure
                      (map (fun r => mkRow (Date r) (astype (numbers_dtype (cs ++ ps)) (Close r)))
                         (zip_rows ts cs ++ zip_rows (prediction_dates_of last) ps))
                      [Lit "Stock Data and Prediction for "; Val ticker]
                      (Some (mktime (last / NS_PER_SECOND) * 1000)))) w2).
Proof.
  intros Hpd Hpreds Hlen Hcloses Hnumbers Hdates. destruct history_frame as [Hframe Hrows].
  assert (length ts = length cs) as Hts
    by (rewrite (parse_dates_length _ _ dates_parse); exact same_length).
  rewrite <- (zip_rows_Close _ _ Hts) in Hcloses.
  rewrite <- (zip_rows_Date _ _ Hts) in Hdates.
  destruct (combined_frame_ok _ ps Hrows Hlen Hcloses Hnumbers) as (last & Hmax & Hc).
  rewrite (zip_rows_Close _ _ Hts) in Hc.
  exists last. split; [exact Hmax|].
  rewrite (main_area_with_frame s m _ pd w2 answer no_error history_has_dates Hframe
             predictions_fetched).
  assert (figure_of mktime ticker (zip_rows ts cs) pd
          = Ok (mkFigure
                  (map (fun r => mkRow (Date r) (astype (numbers_dtype (cs ++ ps)) (Close r)))
                     (zip_rows ts cs ++ zip_rows (prediction_dates_of last) ps))
                  [Lit "Stock Data and Prediction for "; Val ticker]
                  (Some (mktime (last / NS_PER_SECOND) * 1000)))) as ->;
    [|reflexivity].
  subst pd. destruct ps as [|p ps]; [discriminate|].
  unfold figure_of, py_and.
  rewrite (truthy_obj_lookup mp "predictions" _ Hpreds). cbn [py_get py_getitem].
  rewrite Hpreds. unfold mbind, outcome_bind, obind. cbn [default truthy].
  rewrite Hmax, Hc, (time_mktime_Date_max mktime _ last Hmax Hdates). reflexivity.
Qed.

(** X16. With a list of predictions that is neither empty nor of length 7,
    the frame of the predictions cannot be built: [ValueError] leaves the
    main area after both requests, and no chart is drawn. *)
Theorem main_area_other_number_of_predictions (mp : gmap string json) (ps : list json) :
  pd = JObj mp ->
  mp !! "predictions" = Some (JArr ps) ->
  ps <> [] ->
  length ps <> 7%nat ->
  main_area backend mktime w = (Raise (ValueError "All arrays must be of the same length"), w2).
Proof.
  intros Hpd Hpreds Hsome Hlen. destruct history_frame as [Hframe Hrows].
  destruct (Date_max_spec _ Hrows) as (last & Hmax & _).
  rewrite (main_area_with_frame s m _ pd w2 answer no_error history_has_dates Hframe
             predictions_fetched).
  assert (figure_of mktime ticker (zip_rows ts cs) pd
          = Raise (ValueError "All arrays must be of the same length")) as ->;
    [|reflexivity].
  subst pd. destruct ps as [|p ps]; [contradiction|].
  unfold figure_of, py_and.
  rewrite (truthy_obj_lookup mp "predictions" _ Hpreds). cbn [py_get py_getitem].
  rewrite Hpreds. unfold mbind, outcome_bind, obind. cbn [default truthy].
  rewrite Hmax. unfold df_combined_of, mbind, outcome_bind, obind. rewrite Hmax. cbv zeta.
  unfold pd_DataFrame.
  assert (Nat.eqb (length (prediction_dates_of last)) (length (p :: ps)) = false) as ->.
  { apply Nat.eqb_neq. intros E. apply Hlen. rewrite <- E. reflexivity. }
  reflexivity.
Qed.

End MainArea.

(** ** What the script leaves alone *)

Lemma py_get_never_reruns (v : json) (key : string) : py_get v key <> Raise RerunException.
Proof. destruct v; discriminate. Qed.

Lemma py_getitem_never_reruns (v : json) (key : string) : py_getitem v key <> Raise RerunException.
Proof. destruct v; simpl; try discriminate. destruct (m !! key); discriminate. Qed.

Lemma py_and_never_reruns (a : json) (b : outcome json) :
  b <> Raise RerunException -> py_and a b <> Raise RerunException.
Proof. intros Hb. unfold py_and. destruct (truthy a); [exact Hb | discriminate]. Qed.

Lemma parse_dates_never_reruns (l : list json) : parse_dates l <> Raise RerunException.
Proof.
  induction l as [|x l IH]; simpl; [discriminate|].
  destruct x; try discriminate.
  destruct (parse_date s); [|discriminate].
  destruct (parse_dates l); simpl; try discriminate. congruence.
Qed.

Lemma pd_DataFrame_never_reruns (dates : list Timestamp) (close : json) :
  pd_DataFrame dates close <> Raise RerunException.
Proof.
  destruct close; simpl; try discriminate.
  destruct (Nat.eqb _ _); discriminate.
Qed.

Lemma df_historical_of_never_reruns (hd : json) : df_historical_of hd <> Raise RerunException.
Proof.
  unfold df_historical_of, mbind, outcome_bind, obind.
  pose proof (py_getitem_never_reruns hd "dates").
  destruct (py_getitem hd "dates") as [d| |]; try congruence; try discriminate.
  assert (pd_to_datetime d <> Raise RerunException) as Hd.
  { destruct d; simpl; try discriminate. apply parse_dates_never_reruns. }
  destruct (pd_to_datetime d) as [ts| |]; try congruence; try discriminate.
  pose proof (py_getitem_never_reruns hd "close").
  destruct (py_getitem hd "close") as [c| |]; try congruence; try discriminate.
  apply pd_DataFrame_never_reruns.
Qed.

Lemma Date_max_never_reruns (df : DataFrame) : Date_max df <> Raise RerunException.
Proof. destruct df; discriminate. Qed.

Lemma column_dtype_never_raises (vs : list json) (e : exn) : column_dtype vs <> Raise e.
Proof.
  unfold column_dtype. destruct vs as [|v vs]; [discriminate|].
  destruct (forallb is_int64 (v :: vs)); [discriminate|].
  destruct (forallb is_number (v :: vs)); discriminate.
Qed.

Lemma pd_concat_never_raises (a b : DataFrame) (e : exn) : pd_concat a b <> Raise e.
Proof.
  unfold pd_concat, mbind, outcome_bind, obind.
  pose proof (column_dtype_never_raises (map Close a) e).
  destruct (column_dtype (map Close a)) as [ta| |]; try congruence; try discriminate.
  pose proof (column_dtype_never_raises (map Close b) e).
  destruct (column_dtype (map Close b)) as [tb| |]; try congruence; discriminate.
Qed.

Lemma time_mktime_never_raises (mktime : Z -> Z) (t : Timestamp) (e : exn) :
  time_mktime mktime t <> Raise e.
Proof. unfold time_mktime. destruct (every_host_converts t); discriminate. Qed.

Lemma df_combined_of_never_reruns (df : DataFrame) (p : json) :
  df_combined_of df p <> Raise RerunException.
Proof.
  unfold df_combined_of, mbind, outcome_bind, obind.
  pose proof (Date_max_never_reruns df).
  destruct (Date_max df) as [last| |]; try congruence; try discriminate.
  cbv zeta.
  pose proof (pd_DataFrame_never_reruns (prediction_dates_of last) p).
  destruct (pd_DataFrame (prediction_dates_of last) p); try congruence; try discriminate.
  apply pd_concat_never_raises.
Qed.

Lemma figure_of_never_reruns (mktime : Z -> Z) (t : json) (df : DataFrame) (pd : json) :
  figure_of mktime t df pd <> Raise RerunException.
Proof.
  unfold figure_of, mbind, outcome_bind, obind.
  pose proof (py_and_never_reruns pd _ (py_get_never_reruns pd "predictions")).
  destruct (py_and pd (py_get pd "predictions")) as [p| |]; try congruence; try discriminate.
  destruct (truthy p); [|discriminate].
  pose proof (py_getitem_never_reruns pd "predictions").
  destruct (py_getitem pd "predictions") as [ps| |]; try congruence; try discriminate.
  pose proof (Date_max_never_reruns df).
  destruct (Date_max df) as [last| |]; try congruence; try discriminate.
  pose proof (df_combined_of_never_reruns df ps).
  destruct (df_combined_of df ps); try congruence; try discriminate.
  pose proof (time_mktime_never_raises mktime last RerunException).
  destruct (time_mktime mktime last); try congruence; discriminate.
Qed.

Lemma selectbox_value_never_reruns (options : json) (index : option nat) (picked : nat) :
  selectbox_value options index picked <> Raise RerunException.
Proof. destruct options; simpl; try discriminate. destruct (l !! picked); discriminate. Qed.

Section Respects.

Variable R : World -> World -> Prop.
Variable E : exn -> Prop.

Hypothesis R_refl : forall w, R w w.
Hypothesis R_trans : forall w1 w2 w3, R w1 w2 -> R w2 w3 -> R w1 w3.
Hypothesis E_other : forall e, e <> RerunException -> E e.
Hypothesis R_page : forall c w, R w (log_page c w).
Hypothesis R_read : forall r w, is_read_call r = true -> R w (log_backend r w).
Hypothesis R_keys : forall k v w, k ∈ script_keys -> R w (store k v w).

Lemma respects_ret {A : Type} (a : A) : respects R E (mret a).
Proof. intros w. split; [apply R_refl | discriminate]. Qed.

Lemma respects_lift {A : Type} (x : outcome A) :
  x <> Raise RerunException -> respects R E (lift x).
Proof.
  intros Hx w. split; [apply R_refl|]. simpl. intros e He. apply E_other. congruence.
Qed.

Lemma respects_bind {A B : Type} (x : M A) (f : A -> M B) :
  respects R E x -> (forall a, respects R E (f a)) -> respects R E (x ≫= f).
Proof.
  intros Hx Hf w. destruct (Hx w) as [HR HE].
  unfold mbind, M_bind, bind. destruct (x w) as [[a| e |what] w1]; simpl in *.
  - destruct (Hf a w1) as [HR' HE']. split; [eapply R_trans; eassumption | exact HE'].
  - split; [exact HR|]. intros e' [= <-]. apply HE. reflexivity.
  - split; [exact HR | discriminate].
Qed.

Lemma respects_try_except {A : Type} (body : M A) (C : exn -> bool) (handler : exn -> M A) :
  respects R E body -> (forall e, respects R E (handler e)) ->
  respects R E (try_except body C handler).
Proof.
  intros Hb Hh w. destruct (Hb w) as [HR HE].
  unfold try_except. destruct (body w) as [[a| e |what] w1]; simpl in *.
  - split; [exact HR | discriminate].
  - destruct (C e).
    + destruct (Hh e w1) as [HR' HE']. split; [eapply R_trans; eassumption | exact HE'].
    + split; [exact HR | exact HE].
  - split; [exact HR | discriminate].
Qed.

Lemma respects_show (c : UiCall) : respects R E (show c).
Proof. intros w. split; [apply R_page | discriminate]. Qed.

Lemma respects_session_get (key : string) : respects R E (session_get key).
Proof.
  intros w. unfold session_get. destruct (session_state w !! key); simpl.
  - split; [apply R_refl | discriminate].
  - split; [apply R_refl|]. intros e [= <-]. apply E_other. discriminate.
Qed.

Lemma respects_session_has (key : string) : respects R E (session_has key).
Proof. intros w. split; [apply R_refl | discriminate]. Qed.

Lemma respects_session_set (key : string) (v : json) :
  key ∈ script_keys -> respects R E (session_set key v).
Proof. intros Hk w. split; [apply R_keys; exact Hk | discriminate]. Qed.

Section WithBackend.

Variable backend : list Request -> Request -> HttpOutcome.
Variable mktime : Z -> Z.

Lemma respects_request (r : Request) (handler : exn -> M json) :
  (forall w, R w (log_backend r w)) ->
  (forall e, respects R E (handler e)) ->
  respects R E
    (try_except
       (response ← requests_call backend r;
        raise_for_status response;;
        response_json response)
       is_RequestException handler).
Proof.
  intros Hcall Hh w. rewrite request_block.
  destruct (request_error _) as [e|].
  - destruct (Hh e (log_backend r w)) as [HR HE].
    split; [eapply R_trans; [apply Hcall | exact HR] | exact HE].
  - split; [apply Hcall | discriminate].
Qed.

Lemma respects_fetch_tickers : respects R E (fetch_tickers backend).
Proof.
  apply respects_request; [intros w; apply R_read; reflexivity|].
  intros e. apply respects_bind; [apply respects_show | intros _; apply respects_ret].
Qed.

Lemma respects_fetch_historical_data (t : json) : respects R E (fetch_historical_data backend t).
Proof.
  apply respects_request; [intros w; apply R_read; reflexivity|].
  intros e. apply respects_bind; [apply respects_show | intros _; apply respects_ret].
Qed.

Lemma respects_fetch_predictions (t : json) : respects R E (fetch_predictions backend t).
Proof.
  apply respects_request; [intros w; apply R_read; reflexivity|].
  intros e. apply respects_bind; [apply respects_show | intros _; apply respects_ret].
Qed.

Lemma respects_init_session : respects R E init_session.
Proof.
  unfold init_session, script_keys in *.
  repeat first
    [ apply respects_ret
    | apply respects_session_has
    | apply respects_session_set; set_solver
    | apply respects_bind; [|intros ?]
    | match goal with |- respects _ _ (if ?b then _ else _) => destruct b end ].
Qed.

Lemma respects_ticker_selection (u : UserInput) : respects R E (ticker_selection backend u).
Proof.
  unfold ticker_selection.
  repeat first
    [ apply respects_ret
    | apply respects_show
    | apply respects_fetch_tickers
    | apply respects_session_get
    | apply respects_session_set; unfold script_keys; set_solver
    | apply respects_lift; apply selectbox_value_never_reruns
    | apply respects_bind; [|intros ?]
    | match goal with |- respects _ _ (if ?b then _ else _) => destruct b end ].
Qed.

Lemma respects_main_area : respects R E (main_area backend mktime).
Proof.
  unfold main_area.
  repeat first
    [ apply respects_ret
    | apply respects_show
    | apply respects_fetch_historical_data
    | apply respects_fetch_predictions
    | apply respects_session_get
    | apply respects_lift; first
        [ apply py_and_never_reruns, py_get_never_reruns
        | apply df_historical_of_never_reruns
        | apply figure_of_never_reruns ]
    | apply respects_bind; [|intros ?]
    | match goal with |- respects _ _ (if ?b then _ else _) => destruct b end ].
Qed.

Variable provider : list json -> json -> ProviderOutcome.

Lemma respects_add_form_idle (u : UserInput) :
  clicked u = false \/ typed u = "" ->
  respects R E (add_ticker_form backend provider u).
Proof.
  intros Hidle. unfold add_ticker_form.
  assert (clicked u && truthy (JStr (typed u)) = false) as ->.
  { destruct Hidle as [-> | ->]; [reflexivity | apply andb_false_r]. }
  repeat first [ apply respects_ret | apply respects_show | apply respects_bind; [|intros ?] ].
Qed.

Lemma respects_script_idle (u : UserInput) :
  clicked u = false \/ typed u = "" ->
  respects R E (script backend provider mktime u).
Proof.
  intros Hidle. unfold script, sidebar.
  repeat first
    [ apply respects_show
    | apply respects_init_session
    | apply respects_ticker_selection
    | apply respects_main_area
    | apply respects_add_form_idle; exact Hidle
    | apply respects_bind; [|intros ?] ].
Qed.

Hypothesis E_rerun : E RerunException.
Hypothesis R_add : forall t w, R w (log_backend (POST_add t) w).
Hypothesis R_provider : forall t w, R w (log_provider t w).

Lemma respects_add_new_ticker (t : json) : respects R E (add_new_ticker backend provider t).
Proof.
  intros w. rewrite add_new_ticker_run.
  destruct (has_rows _); [destruct (request_error _) as [e|]|]; (split; [|discriminate]).
  - eapply R_trans; [apply R_provider|]. eapply R_trans; [apply R_add | apply R_page].
  - eapply R_trans; [apply R_provider | apply R_add].
  - eapply R_trans; [apply R_provider | apply R_page].
Qed.

Lemma respects_raise_rerun {A : Type} : respects R E (raise (A := A) RerunException).
Proof. intros w. split; [apply R_refl|]. intros e [= <-]. exact E_rerun. Qed.

Lemma respects_add_ticker_form (u : UserInput) :
  respects R E (add_ticker_form backend provider u).
Proof.
  unfold add_ticker_form.
  repeat first
    [ apply respects_ret
    | apply respects_show
    | apply respects_add_new_ticker
    | apply respects_fetch_tickers
    | apply respects_raise_rerun
    | apply respects_session_set; unfold script_keys; set_solver
    | apply respects_lift; apply py_get_never_reruns
    | apply respects_bind; [|intros ?]
    | match goal with |- respects _ _ (if ?b then _ else _) => destruct b end ].
Qed.

Lemma respects_script (u : UserInput) : respects R E (script backend provider mktime u).
Proof.
  unfold script, sidebar.
  repeat first
    [ apply respects_show
    | apply respects_init_session
    | apply respects_ticker_selection
    | apply respects_main_area
    | apply respects_add_ticker_form
    | apply respects_bind; [|intros ?] ].
Qed.

End WithBackend.

End Respects.

(** The two relations the script is measured with. *)
Lemma only_reads_refl (w : World) : only_reads w w.
Proof. split; [reflexivity|]. exists []. split; [symmetry; apply app_nil_r | constructor]. Qed.

Lemma only_reads_trans (w1 w2 w3 : World) :
  only_reads w1 w2 -> only_reads w2 w3 -> only_reads w1 w3.
Proof.
  intros (Hp1 & c1 & Hc1 & Hr1) (Hp2 & c2 & Hc2 & Hr2). split; [congruence|].
  exists (c1 ++ c2). split; [rewrite Hc2, Hc1, app_assoc; reflexivity|].
  apply Forall_app. split; assumption.
Qed.

Lemma only_reads_page (c : UiCall) (w : World) : only_reads w (log_page c w).
Proof.
  split; [reflexivity|]. exists []. split; [symmetry; apply app_nil_r | constructor].
Qed.

Lemma only_reads_read (r : Request) (w : World) :
  is_read_call r = true -> only_reads w (log_backend r w).
Proof.
  intros Hr. split; [reflexivity|]. exists [r]. split; [reflexivity|].
  constructor; [exact Hr | constructor].
Qed.

Lemma only_reads_keys (k : string) (v : json) (w : World) :
  k ∈ script_keys -> only_reads w (store k v w).
Proof.
  intros _. split; [reflexivity|]. exists []. split; [symmetry; apply app_nil_r | constructor].
Qed.

Lemma extends_refl (w : World) : extends w w.
Proof.
  split; [exists []; symmetry; apply app_nil_r|]. split; [exists []; symmetry; apply app_nil_r|].
  split; [exists []; symmetry; apply app_nil_r|]. intros k _. reflexivity.
Qed.

Lemma extends_trans (w1 w2 w3 : World) : extends w1 w2 -> extends w2 w3 -> extends w1 w3.
Proof.
  intros ((p1 & Hp1) & (c1 & Hc1) & (l1 & Hl1) & Hs1) ((p2 & Hp2) & (c2 & Hc2) & (l2 & Hl2) & Hs2).
  split; [exists (p1 ++ p2); rewrite Hp2, Hp1, app_assoc; reflexivity|].
  split; [exists (c1 ++ c2); rewrite Hc2, Hc1, app_assoc; reflexivity|].
  split; [exists (l1 ++ l2); rewrite Hl2, Hl1, app_assoc; reflexivity|].
  intros k Hk. rewrite Hs2, Hs1 by exact Hk. reflexivity.
Qed.

Lemma extends_page (c : UiCall) (w : World) : extends w (log_page c w).
Proof.
  split; [exists [c]; reflexivity|]. split; [exists []; symmetry; apply app_nil_r|]. split; [exists []; symmetry; apply app_nil_r|].
  intros k _. reflexivity.
Qed.

Lemma extends_backend (r : Request) (w : World) : extends w (log_backend r w).
Proof.
  split; [exists []; symmetry; apply app_nil_r|]. split; [exists [r]; reflexivity|]. split; [exists []; symmetry; apply app_nil_r|].
  intros k _. reflexivity.
Qed.

Lemma extends_provider (t : json) (w : World) : extends w (log_provider t w).
Proof.
  split; [exists []; symmetry; apply app_nil_r|]. split; [exists []; symmetry; apply app_nil_r|]. split; [exists [t]; reflexivity|].
  intros k _. reflexivity.
Qed.

Lemma extends_keys (k : string) (v : json) (w : World) :
  k ∈ script_keys -> extends w (store k v w).
Proof.
  intros Hk.
  split; [exists []; symmetry; apply app_nil_r|]. split; [exists []; symmetry; apply app_nil_r|].
  split; [exists []; symmetry; apply app_nil_r|].
  intros k' Hk'. simpl. apply lookup_insert_ne. intros ->. contradiction.
Qed.

(** X17. A run of the script without a click on the button, or with nothing
    typed, never ends with the rerun signal, never asks the provider, and
    makes only reading calls to the backend (the ticker list, a history,
    predictions), never the call that adds a ticker; whatever the backend
    answers, an exception of the run included. *)
Theorem idle_run_only_reads
    (backend : list Request -> Request -> HttpOutcome)
    (provider : list json -> json -> ProviderOutcome) (mktime : Z -> Z)
    (u : UserInput) (w : World) :
  clicked u = false \/ typed u = "" ->
  fst (script backend provider mktime u w) <> Raise RerunException /\
  provider_calls (snd (script backend provider mktime u w)) = provider_calls w /\
  exists calls : list Request,
    backend_calls (snd (script backend provider mktime u w)) = backend_calls w ++ calls /\
    Forall (fun r => is_read_call r = true) calls.
Proof.
  intros Hidle.
  destruct (respects_script_idle only_reads not_rerun only_reads_refl only_reads_trans
              (fun e He => He) only_reads_page only_reads_read only_reads_keys
              backend mktime provider u Hidle w) as [[Hp Hc] HE].
  split; [|split; [exact Hp | exact Hc]].
  intros Hrerun. exact (HE _ Hrerun eq_refl).
Qed.

(** X18. A render cycle never ends with the rerun signal.  It only adds to
    the page and to the logs of calls made to the backend and to the
    provider, and the only entries of the session state it writes are
    [selected_ticker], [all_tickers], [ticker_added] and [initial_load];
    whatever the backend and the provider answer. *)
Theorem render_footprint
    (backend : list Request -> Request -> HttpOutcome)
    (provider : list json -> json -> ProviderOutcome) (mktime : Z -> Z)
    (u : UserInput) (w : World) :
  fst (render backend provider mktime u w) <> Raise RerunException /\
  extends w (snd (render backend provider mktime u w)).
Proof.
  destruct (respects_script extends (fun _ => True) extends_refl extends_trans
              (fun _ _ => I) extends_page (fun r w _ => extends_backend r w) extends_keys
              backend mktime provider I (fun t w => extends_backend (POST_add t) w)
              extends_provider u w) as [Hfirst _].
  unfold render.
  destruct (script backend provider mktime u w) as [[a| e |what] w1] eqn:Hrun; simpl in Hfirst;
    try (split; [discriminate | exact Hfirst]).
  destruct (respects_script_idle extends not_rerun extends_refl extends_trans
              (fun e He => He) extends_page (fun r w _ => extends_backend r w) extends_keys
              backend mktime provider (mkUserInput (picked u) (typed u) false)
              (or_introl eq_refl) w1)
    as [Hsecond HE].
  destruct e; try (split; [discriminate | exact Hfirst]).
  split.
  - intros Hrerun. exact (HE _ Hrerun eq_refl).
  - eapply extends_trans; eassumption.
Qed.

(** X19. A run without a click, when the ticker list cannot be fetched or
    is false in Python's sense (the empty list, [null]): the run ends
    normally after the one call for the list; it shows the error of the
    fetch, if any, and the warning that no ticker is available, selects
    nothing, and the main area stays empty. *)
Theorem idle_run_without_tickers
    (backend : list Request -> Request -> HttpOutcome)
    (provider : list json -> json -> ProviderOutcome) (mktime : Z -> Z)
    (u : UserInput) (w : World) :
  clicked u = false \/ typed u = "" ->
  let o := backend (backend_calls w) GET_tickers in
  request_error o <> None \/ truthy (decoded o) = false ->
  exists w' : World,
    script backend provider mktime u w = (Ok tt, w') /\
    session_state w' !! "selected_ticker" = Some JNull /\
    session_state w' !! "all_tickers"
    = Some (match request_error o with Some _ => JArr [] | None => decoded o end) /\
    backend_calls w' = backend_calls w ++ [GET_tickers] /\
    provider_calls w' = provider_calls w /\
    page w'
    = page w
      ++ [st_title "Stock Price Prediction App"; st_header "Ticker Options"]
      ++ match request_error o with
         | Some e => [st_error [Lit "Error fetching tickers: "; Exc e]]
         | None => []
         end
      ++ [st_warning "No tickers available. Please add a ticker."; st_header "Add Ticker";
          st_text_input "Enter New Ticker"; st_button "Add Ticker"].
Proof.
  intros Hidle o Hnone.
  destruct (init_session_state (log_page (st_title "Stock Price Prediction App") w))
    as (w1 & Hinit & Hpage & Hcalls & Hprov & _).
  simpl in Hpage, Hcalls, Hprov.
  set (v := match request_error o with Some _ => JArr [] | None => decoded o end).
  assert (truthy v = false) as Hfalsy.
  { unfold v. destruct (request_error o); [reflexivity|].
    destruct Hnone as [Hn | Hn]; [contradiction | exact Hn]. }
  set (w2 := match request_error o with
             | Some e => log_page (st_error [Lit "Error fetching tickers: "; Exc e])
                           (log_backend GET_tickers (log_page (st_header "Ticker Options") w1))
             | None => log_backend GET_tickers (log_page (st_header "Ticker Options") w1)
             end).
  assert (fetch_tickers backend (log_page (st_header "Ticker Options") w1) = (Ok v, w2)) as Hfetch.
  { rewrite fetch_tickers_run. cbn [backend_calls log_page]. rewrite Hcalls. fold o.
    unfold v, w2. destruct (request_error o); reflexivity. }
  pose proof (ticker_selection_run backend u w1 w2 v Hfetch) as Hsel. rewrite Hfalsy in Hsel.
  eexists. split.
  { unfold script. unfold mbind at 1, M_bind at 1, bind at 1, show at 1.
    rewrite (bind_ok _ _ _ _ _ Hinit). unfold sidebar.
    unfold mbind at 1, M_bind at 1, bind at 1.
    unfold mbind at 1, M_bind at 1, bind at 1. rewrite Hsel.
    rewrite (add_form_idle_run backend provider u _ Hidle).
    unfold main_area. unfold mbind at 1, M_bind at 1, bind at 1, session_get at 1.
    cbn [session_state store log_page]. rewrite lookup_insert_eq. cbn [truthy]. reflexivity. }
  cbn [session_state page backend_calls provider_calls store log_page].
  split; [apply lookup_insert_eq|].
  split; [rewrite lookup_insert_ne by discriminate; apply lookup_insert_eq|].
  unfold w2. destruct (request_error o);
    cbn [session_state page backend_calls provider_calls store log_page log_backend];
    rewrite Hpage, Hcalls, Hprov; (split; [reflexivity|]); (split; [reflexivity|]);
    rewrite <- !app_assoc; reflexivity.
Qed.

(** * More concrete runs *)


(** A session that has run before is initialised once and for all. *)
Lemma init_session_idempotent_witness :
  init_session (snd (init_session used_world)) = (Ok tt, snd (init_session used_world)).
Proof. apply (init_session_idempotent used_world). vm_compute. reflexivity. Defined.

(** A ticker typed and no click. *)
Lemma add_form_without_click_witness :
  add_ticker_form regular_backend any_symbol_provider (mkUserInput 0 "TSLA" false) fresh_world
  = (Ok tt,
     mkWorld ∅
       [st_header "Add Ticker"; st_text_input "Enter New Ticker"; st_button "Add Ticker"] [] []).
Proof.
  exact (add_form_without_click regular_backend any_symbol_provider (mkUserInput 0 "TSLA" false)
           fresh_world (or_introl eq_refl)).
Defined.


(** A click with a ticker the backend answers with a list. *)
Lemma add_form_body_without_get_witness :
  fst (add_ticker_form list_body_backend any_symbol_provider (mkUserInput 0 "TSLA" true)
         fresh_world)
  = Raise (AttributeError "object has no attribute 'get'").
Proof.
  rewrite (add_form_body_without_get list_body_backend any_symbol_provider
             (mkUserInput 0 "TSLA" true) fresh_world 200 (JArr [JStr "added"]));
    [reflexivity | reflexivity | discriminate | reflexivity | reflexivity | reflexivity
    | reflexivity | discriminate].
Defined.

(** A selected ticker and a backend that cannot be reached. *)
Lemma main_area_history_unavailable_witness :
  main_area unreachable_backend utc selected_world
  = (Ok tt,
     mkWorld {[ "selected_ticker" := JStr "AAPL" ]}
       [st_error [Lit "Error fetching historical data for "; Val (JStr "AAPL"); Lit ": ";
                  Exc (RequestException ConnectionError "connection refused")];
        st_warning "Could not retrieve data, please make sure ticker has valid historical data"]
       [GET_historical_data (JStr "AAPL")] []).
Proof.
  refine (main_area_history_unavailable unreachable_backend utc selected_world (JStr "AAPL") _ _
            (RequestException ConnectionError "connection refused") _).
  - vm_compute. reflexivity.
  - reflexivity.
  - reflexivity.
Defined.

(** A history that is a list. *)
Lemma main_area_history_without_get_witness :
  fst (main_area list_body_backend utc selected_world)
  = Raise (AttributeError "object has no attribute 'get'").
Proof.
  rewrite (main_area_history_without_get list_body_backend utc selected_world (JStr "AAPL"))
    with (s := 200) (hd := JArr [JStr "2024-01-01"]);
    [reflexivity | vm_compute; reflexivity | reflexivity | reflexivity | reflexivity
    | reflexivity | discriminate].
Defined.

(** Two dates and one close. *)
Lemma main_area_close_of_other_length_witness :
  fst (main_area short_close_backend utc selected_world)
  = Raise (ValueError "All arrays must be of the same length").
Proof.
  rewrite (main_area_close_of_other_length short_close_backend utc selected_world (JStr "AAPL"))
    with (s := 200)
         (m := list_to_map [("dates", JArr [JStr "2024-01-01"; JStr "2024-01-02"]);
                            ("close", nums [100])])
         (ds := [JStr "2024-01-01"; JStr "2024-01-02"])
         (cs := [JInt 100])
         (ts := [1704067200000000000; 1704153600000000000]);
    [reflexivity | vm_compute; reflexivity | reflexivity | reflexivity | reflexivity
    | vm_compute; reflexivity | discriminate | vm_compute; reflexivity
    | vm_compute; reflexivity | discriminate].
Defined.

(** Two dates and no close. *)
Lemma main_area_close_missing_witness :
  fst (main_area no_close_backend utc selected_world) = Raise (KeyError "close").
Proof.
  rewrite (main_area_close_missing no_close_backend utc selected_world (JStr "AAPL"))
    with (s := 200)
         (m := list_to_map [("dates", JArr [JStr "2024-01-01"; JStr "2024-01-02"])])
         (ds := [JStr "2024-01-01"; JStr "2024-01-02"])
         (ts := [1704067200000000000; 1704153600000000000]);
    [reflexivity | vm_compute; reflexivity | reflexivity | reflexivity | reflexivity
    | vm_compute; reflexivity | discriminate | vm_compute; reflexivity
    | vm_compute; reflexivity].
Defined.


(** The scenario's history with its seven predictions, on a host five hours
    west of UTC: the line is five hours after the last historical date. *)
Lemma main_area_with_predictions_witness :
  exists (fig : Figure) (w' : World),
    main_area regular_backend five_hours_west selected_world
    = (Ok tt, log_page (st_plotly_chart fig) w') /\
    length (fig_data fig) = 9%nat /\
    fig_vline fig = Some 1704171600000.
Proof.
  destruct (main_area_with_predictions regular_backend five_hours_west selected_world
              (JStr "AAPL"))
    with (s := 200)
         (m := list_to_map [("dates", JArr [JStr "2024-01-01"; JStr "2024-01-02"]);
                            ("close", nums [100; 102])] : gmap string json)
         (ds := [JStr "2024-01-01"; JStr "2024-01-02"])
         (cs := [JInt 100; JInt 102])
         (ts := [1704067200000000000; 1704153600000000000])
         (pd := scenario_predictions)
         (w2 := log_backend (POST_predict (JStr "AAPL"))
                  (log_backend (GET_historical_data (JStr "AAPL")) selected_world))
         (mp := list_to_map [("predictions", nums [103; 104; 105; 106; 107; 108; 109])]
                : gmap string json)
         (ps := seven_predictions)
    as (last & Hmax & Hrun);
    [vm_compute; reflexivity | reflexivity | reflexivity | reflexivity
    | vm_compute; reflexivity | discriminate | vm_compute; reflexivity
    | vm_compute; reflexivity | reflexivity | reflexivity | reflexivity
    | vm_compute; reflexivity | reflexivity | reflexivity | reflexivity | reflexivity |].
  vm_compute in Hmax. injection Hmax as <-.
  do 2 eexists. split; [exact Hrun|]. split; reflexivity.
Defined.

(** The scenario's history with six predictions. *)
Lemma main_area_other_number_of_predictions_witness :
  fst (main_area six_predictions_backend utc selected_world)
  = Raise (ValueError "All arrays must be of the same length").
Proof.
  rewrite (main_area_other_number_of_predictions six_predictions_backend utc selected_world
             (JStr "AAPL"))
    with (s := 200)
         (m := list_to_map [("dates", JArr [JStr "2024-01-01"; JStr "2024-01-02"]);
                            ("close", nums [100; 102])])
         (ds := [JStr "2024-01-01"; JStr "2024-01-02"])
         (cs := [JInt 100; JInt 102])
         (ts := [1704067200000000000; 1704153600000000000])
         (pd := obj [("predictions", nums [103; 104; 105; 106; 107; 108])])
         (w2 := log_backend (POST_predict (JStr "AAPL"))
                  (log_backend (GET_historical_data (JStr "AAPL")) selected_world))
         (mp := list_to_map [("predictions", nums [103; 104; 105; 106; 107; 108])])
         (ps := map JInt [103; 104; 105; 106; 107; 108]);
    [reflexivity | vm_compute; reflexivity | reflexivity | reflexivity | reflexivity
    | vm_compute; reflexivity | discriminate | vm_compute; reflexivity
    | vm_compute; reflexivity | reflexivity | reflexivity | reflexivity
    | vm_compute; reflexivity | discriminate | discriminate].
Defined.

(** A first run without a click: three reading calls. *)
Lemma idle_run_only_reads_witness :
  fst (script regular_backend any_symbol_provider utc (mkUserInput 0 "" false) fresh_world)
  <> Raise RerunException /\
  Forall (fun r => is_read_call r = true)
    (backend_calls
       (snd (script regular_backend any_symbol_provider utc (mkUserInput 0 "" false) fresh_world))).
Proof.
  destruct (idle_run_only_reads regular_backend any_symbol_provider utc
              (mkUserInput 0 "" false) fresh_world (or_introl eq_refl)) as (Hrerun & _ & calls & Hcalls & Hread).
  split; [exact Hrerun|]. rewrite Hcalls. exact Hread.
Defined.

(** A first run against a backend that cannot be reached. *)
Lemma idle_run_without_tickers_witness :
  exists w' : World,
    script unreachable_backend no_symbol_provider utc (mkUserInput 0 "" false) fresh_world
    = (Ok tt, w') /\
    session_state w' !! "selected_ticker" = Some JNull /\
    backend_calls w' = [GET_tickers].
Proof.
  destruct (idle_run_without_tickers unreachable_backend no_symbol_provider utc
              (mkUserInput 0 "" false) fresh_world (or_introl eq_refl))
    as (w' & Hrun & Hselected & _ & Hcalls & _).
  - left. discriminate.
  - exists w'. split; [exact Hrun|]. split; [exact Hselected | exact Hcalls].
Defined.
